(** * Azure login: browser login and token refresh (azure/login/login.go)

    A shallow embedding of [AzureLoginService.Login], [GetValidToken],
    [refreshToken], [toOAuthToken] and [openbrowser].  The Go code talks to
    the outside (browser, identity provider, local callback listener, clock)
    and to the token store file; the embedding threads an explicit state made
    of the outside world, the token store and a log of the calls that were
    made, so that "no network call" and "no write" are statements about that
    log and about the store component. *)

From stdpp Require Import base option list strings gmap pretty.
From Stdlib Require Import ZArith Lia Ascii.
From Stdlib Require Floats Uint63.

Open Scope Z_scope.
Open Scope string_scope.
Open Scope list_scope.

(** ** Values of the Go types the file uses *)

(** [url.Values] is [map[string][]string]. *)
Abbreviation Values := (gmap string (list string)).

Module time.
(** An instant is counted in nanoseconds from the zero [time.Time]; a
    [time.Duration] is an [int64] count of nanoseconds, whose products wrap
    around like every Go integer operation. *)
Definition Time := Z.
Definition Duration := Z.

Definition int64 (z : Z) : Z := (z + 2 ^ 63) `mod` 2 ^ 64 - 2 ^ 63.

Definition Second : Duration := 1000000000.

(** [a * b] on [Duration]. *)
Definition mul (a b : Duration) : Duration := int64 (a * b).
(** [-d] on [Duration]. *)
Definition neg (d : Duration) : Duration := int64 (- d).

Definition Add (t : Time) (d : Duration) : Time := t + d.
Definition Before (t u : Time) : bool := bool_decide (t < u).
Definition IsZero (t : Time) : bool := bool_decide (t = 0).
(** [t.Round(0)] strips the monotonic clock reading and keeps the instant. *)
Definition Round0 (t : Time) : Time := t.

Definition minDuration : Duration := - 2 ^ 63.
Definition maxDuration : Duration := 2 ^ 63 - 1.

(** [t.Sub(u)]: the difference, or the nearest duration when it does not
    fit. *)
Definition Sub (t u : Time) : Duration :=
  if bool_decide (t - u < minDuration) then minDuration
  else if bool_decide (maxDuration < t - u) then maxDuration
  else t - u.

(** [float64(x)] for an [int64] [x]. *)
Definition float64 (x : Z) : PrimFloat.float :=
  if (x <? 0)%Z then PrimFloat.opp (PrimFloat.of_uint63 (Uint63.of_Z (- x)))
  else PrimFloat.of_uint63 (Uint63.of_Z x).

(** [int(f)] for a finite [float64] within the range of [int]: the
    fraction is dropped. *)
Definition int (f : PrimFloat.float) : Z :=
  match FloatOps.Prim2SF f with
  | SpecFloat.S754_zero _ => 0
  | SpecFloat.S754_finite sign m e =>
      let magnitude := if (0 <=? e)%Z then Z.pos m * 2 ^ e else Z.pos m / 2 ^ (- e) in
      if sign then - magnitude else magnitude
  | _ => minDuration
  end.

(** [d.Seconds()]: [float64(d / Second) + float64(d % Second) / 1e9]. *)
Definition Seconds (d : Duration) : PrimFloat.float :=
  let sec := Z.quot d Second in
  let nsec := Z.rem d Second in
  PrimFloat.add (float64 sec) (PrimFloat.div (float64 nsec) (float64 1000000000)).
End time.

Module date.
(** [date.UnixEpoch()]: 1 January 1970 UTC, 62135596800 seconds after the
    zero time. *)
Definition UnixEpoch : time.Time := 62135596800 * 1000000000.
End date.

Module fmt.
(** Operands handed to [fmt.Errorf] / [fmt.Sprintf] in this package: a
    string, or a [[]string] (the value found under a query key). *)
Inductive operand :=
| str (s : string)
| strs (l : list string).

Fixpoint join (sep : string) (l : list string) : string :=
  match l with
  | [] => EmptyString
  | [x] => x
  | x :: l' => x +:+ sep +:+ join sep l'
  end.

(** The verb [%s] prints a string as it is and a slice as its elements
    between brackets, separated by one space. *)
Definition show (o : operand) : string :=
  match o with
  | str s => s
  | strs l => "[" +:+ join " " l +:+ "]"
  end.

(** [fmt.Sprintf] on the formats of this package: plain text and the verb
    [%s], with one operand per verb ([%!s(MISSING)] is what Go prints for a
    verb that has none). *)
Fixpoint Sprintf (format : string) (a : list operand) : string :=
  match format with
  | EmptyString => EmptyString
  | String "%"%char (String "s"%char rest) =>
      match a with
      | o :: a' => show o +:+ Sprintf rest a'
      | [] => "%!s(MISSING)" +:+ Sprintf rest []
      end
  | String c rest => String c (Sprintf rest a)
  end.
End fmt.

(** Go [error] values as this file builds them.  [errors_Wrap] is
    [errors.Wrap] of github.com/pkg/errors, [ErrLoginFailed] the sentinel
    declared in package errdefs. *)
Inductive error :=
| errors_New (text : string)
| fmt_Errorf (format : string) (a : list fmt.operand)
| errors_Wrap (cause : error) (message : string)
| ErrLoginFailed.

(** The errors that report a failed login: the sentinel, and the errors this
    file labels with the text "login failed". *)
Definition LoginFailed (e : error) : bool :=
  match e with
  | ErrLoginFailed => true
  | fmt_Errorf format _ => String.prefix "login failed" format
  | errors_Wrap _ message => bool_decide (message = "login failed")
  | errors_New _ => false
  end.

Module oauth2.
(** [oauth2.Token] of golang.org/x/oauth2. *)
Record Token := {
  AccessToken : string;
  TokenType : string;
  RefreshToken : string;
  Expiry : time.Time
}.

(** [oauth2.Token{}] *)
Definition zero : Token :=
  {| AccessToken := EmptyString; TokenType := EmptyString;
     RefreshToken := EmptyString; Expiry := 0 |}.

(** [expiryDelta]: how much earlier than its expiry a token counts as
    expired. *)
Definition expiryDelta : time.Duration := time.mul 10 time.Second.

(** [Token.expired], with the clock reading [now]. *)
Definition expired (t : Token) (now : time.Time) : bool :=
  if time.IsZero (Expiry t) then false
  else time.Before (time.Add (time.Round0 (Expiry t)) (time.neg expiryDelta)) now.

(** [Token.Valid]: has an access token and is not expired. *)
Definition Valid (t : Token) (now : time.Time) : bool :=
  negb (bool_decide (AccessToken t = EmptyString)) && negb (expired t now).
End oauth2.

(** The provider's token response; the [int] fields are integers of the
    platform's word size, 64 bits here. *)
Record azureToken := {
  Type_ : string;
  Scope : string;
  ExpiresIn : Z;
  ExtExpiresIn : Z;
  AccessToken : string;
  RefreshToken : string;
  Foci : string
}.

Record tenantValue := { TenantID : string }.
Record tenantResult := { Value : list tenantValue }.

(** [TokenInfo], the record kept in the token store. *)
Record TokenInfo := {
  TokenInfo_TenantID : string;
  TokenInfo_Token : oauth2.Token
}.

Definition authorizeFormat : string :=
  "https://login.microsoftonline.com/organizations/oauth2/v2.0/authorize?response_type=code&client_id=%s&redirect_uri=%s&state=%s&prompt=select_account&response_mode=query&scope=%s".
Definition tokenEndpoint : string :=
  "https://login.microsoftonline.com/%s/oauth2/v2.0/token".
Definition authorizationURL : string :=
  "https://management.azure.com/tenants?api-version=2019-11-01".
Definition scopes : string := "offline_access https://management.azure.com/.default".
Definition clientID : string := "04b07795-8ddb-461a-bbee-02f9e1bf7b46".

(** ** How a call ends *)

(** A Go call returns, panics, ends the process ([log.Fatal] is [os.Exit(1)]
    after printing), or never comes back (a [select] none of whose cases
    becomes ready). *)
Inductive outcome (A : Type) :=
| Returned (a : A)
| Panicked (msg : string)
| Exited (code : Z)
| Blocked.
Arguments Returned {A} a.
Arguments Panicked {A} msg.
Arguments Exited {A} code.
Arguments Blocked {A}.

(** What the [select] of [Login] received. *)
Inductive selected :=
| ctx_Done
| recv_queryCh (qsValues : Values).

(** The log: every call that leaves the function, with what it gave back. *)
Inductive event :=
| ev_startLoginServer (r : outcome (Z * option error))
| ev_openAzureLoginPage (redirectURL : string) (r : outcome unit)
| ev_select (r : outcome selected)
| ev_queryToken (data : Values) (tenantID : string) (r : outcome (azureToken * option error))
| ev_queryAuthorizationAPI (url authorizationHeader : string)
    (r : outcome (string * Z * option error))
| ev_readToken (r : TokenInfo * option error)
| ev_writeLoginInfo (info : TokenInfo) (r : option error)
| ev_Println (line : string).

(** ** The state the code runs in *)

(** The outside world [W] (browser, network, listener goroutine, clock,
    cancellation), the token store file [S], and the log. *)
Record state (W S : Type) := mkState {
  world : W;
  files : S;
  trace : list event
}.
Arguments mkState {W S} world files trace.
Arguments world {W S} s.
Arguments files {W S} s.
Arguments trace {W S} s.

(** A call on the outside world alone. *)
Definition ext (W A : Type) : Type := W -> outcome A * W.

(** A computation of the package. *)
Definition M (W S A : Type) : Type := state W S -> outcome A * state W S.

#[global] Instance M_ret {W S} : MRet (M W S) :=
  fun A (a : A) s => (Returned a, s).

#[global] Instance M_bind {W S} : MBind (M W S) :=
  fun A B (k : A -> M W S B) (m : M W S A) s =>
    match m s with
    | (Returned a, s') => k a s'
    | (Panicked msg, s') => (Panicked msg, s')
    | (Exited code, s') => (Exited code, s')
    | (Blocked, s') => (Blocked, s')
    end.

(** [panic(...)] *)
Definition panic {W S A} (msg : string) : M W S A := fun s => (Panicked msg, s).

(** ** The collaborators of the package *)

(** Interface [apiHelper]: the calls to the browser and to the provider. *)
Record apiHelper (W : Type) := {
  queryToken : Values -> string -> ext W (azureToken * option error);
  openAzureLoginPage : string -> ext W unit;
  queryAuthorizationAPI : string -> string -> ext W (string * Z * option error)
}.
Arguments queryToken {W} a data tenantID.
Arguments openAzureLoginPage {W} a redirectURL.
Arguments queryAuthorizationAPI {W} a url authorizationHeader.

(** Struct [tokenStore] with its two methods; reading leaves the file as it
    is, writing may fail and may change it. *)
Record tokenStore (S : Type) := {
  readToken : S -> TokenInfo * option error;
  writeLoginInfo : TokenInfo -> S -> option error * S
}.
Arguments readToken {S} t.
Arguments writeLoginInfo {S} t info.

(** Struct [AzureLoginService]. *)
Record AzureLoginService (W S : Type) := {
  svc_tokenStore : tokenStore S;
  svc_apiHelper : apiHelper W
}.
Arguments svc_tokenStore {W S} a.
Arguments svc_apiHelper {W S} a.

(** [context.Context], seen through its [Done] channel: closed or not. *)
Definition Context (W : Type) : Type := W -> bool.

(** What the Go runtime, the standard library and the other files of the
    package contribute.
    - [GOOS], [exec_Start]: [runtime.GOOS] and [exec.Command(...).Start()];
    - [time_Now]: the clock;
    - [startLoginServer]: starts the callback listener, which later sends the
      query of the redirect into the one-slot channel [queryCh];
    - [queryCh], [queryCh_take]: the value buffered in the channel, and the
      world once it has been received;
    - [park]: the world at the moment a goroutine blocked in [select] is
      woken up ([None]: it never is); [pick]: the choice [select] makes when
      both cases are ready;
    - [json_Unmarshal]: [json.Unmarshal] into a [tenantResult];
    - [randomString], [http_queryToken], [http_queryAuthorizationAPI]: what
      the production helper [azureAPIHelper] is built from. *)
Record runtime (W : Type) := {
  GOOS : string;
  exec_Start : string -> list string -> W -> option error * W;
  time_Now : W -> time.Time;
  startLoginServer : ext W (Z * option error);
  queryCh : W -> option Values;
  queryCh_take : W -> W;
  park : W -> option W;
  pick : W -> bool;
  json_Unmarshal : string -> tenantResult * option error;
  randomString : W -> string * W;
  http_queryToken : Values -> string -> ext W (azureToken * option error);
  http_queryAuthorizationAPI : string -> string -> ext W (string * Z * option error)
}.
Arguments GOOS {W} r.
Arguments exec_Start {W} r name arg.
Arguments time_Now {W} r w.
Arguments startLoginServer {W} r.
Arguments queryCh {W} r w.
Arguments queryCh_take {W} r w.
Arguments park {W} r w.
Arguments pick {W} r w.
Arguments json_Unmarshal {W} r data.
Arguments randomString {W} r w.
Arguments http_queryToken {W} r data tenantID.
Arguments http_queryAuthorizationAPI {W} r url authorizationHeader.

(** ** The code *)

Section Code.
Context {W S : Type}.
Variable rt : runtime W.

(** A call on the world, logged with its outcome. *)
Definition call {A} (op : ext W A) (ev : outcome A -> event) : M W S A :=
  fun s =>
    let '(r, w) := op (world s) in
    (r, mkState w (files s) (trace s ++ [ev r])).

Definition do_readToken (store : tokenStore S) : M W S (TokenInfo * option error) :=
  fun s =>
    let r := readToken store (files s) in
    (Returned r, mkState (world s) (files s) (trace s ++ [ev_readToken r])).

Definition do_writeLoginInfo (store : tokenStore S) (info : TokenInfo)
  : M W S (option error) :=
  fun s =>
    let '(r, f) := writeLoginInfo store info (files s) in
    (Returned r, mkState (world s) f (trace s ++ [ev_writeLoginInfo info r])).

Definition Println (line : string) : M W S unit :=
  fun s => (Returned tt, mkState (world s) (files s) (trace s ++ [ev_Println line])).

(** [time.Now()] *)
Definition Now : M W S time.Time :=
  fun s => (Returned (time_Now rt (world s)), s).

(** The [select] over [ctx.Done()] and [queryCh]: it proceeds with a ready
    case, chooses when both are ready, and otherwise the goroutine is
    parked until the world has made one ready. *)
Definition ready (ctx : Context W) (w : W) : bool :=
  ctx w || bool_decide (is_Some (queryCh rt w)).

Definition wakeup (ctx : Context W) (w : W) : option W :=
  if ready ctx w then Some w else park rt w.

Definition select (ctx : Context W) : ext W selected :=
  fun w =>
    match wakeup ctx w with
    | None => (Blocked, w)
    | Some w' =>
        match ctx w', queryCh rt w' with
        | true, None => (Returned ctx_Done, w')
        | false, Some qsValues => (Returned (recv_queryCh qsValues), queryCh_take rt w')
        | true, Some qsValues =>
            if pick rt w' then (Returned ctx_Done, w')
            else (Returned (recv_queryCh qsValues), queryCh_take rt w')
        | false, None => (Blocked, w')
        end
    end.

(** [strconv.Itoa] *)
Definition Itoa (i : Z) : string := pretty i.

Definition toOAuthToken (token : azureToken) : M W S oauth2.Token :=
  now ← Now;
  let expireTime := time.Add now (time.mul (ExpiresIn token) time.Second) in
  let oauthToken :=
    {| oauth2.RefreshToken := RefreshToken token;
       oauth2.AccessToken := AccessToken token;
       oauth2.Expiry := expireTime;
       oauth2.TokenType := Type_ token |} in
  mret oauthToken.

Definition refreshToken_data (currentRefreshToken : string) : Values :=
  {[ "grant_type" := ["refresh_token"];
     "client_id" := [clientID];
     "scope" := [scopes];
     "refresh_token" := [currentRefreshToken] ]}.

Definition refreshToken (login : AzureLoginService W S)
    (currentRefreshToken tenantID : string) : M W S (oauth2.Token * option error) :=
  let data := refreshToken_data currentRefreshToken in
  '(token, err) ← call (queryToken (svc_apiHelper login) data tenantID)
                       (ev_queryToken data tenantID);
  match err with
  | Some e => mret (oauth2.zero, Some e)
  | None => t ← toOAuthToken token; mret (t, None)
  end.

Definition Login_data (code : list string) (redirectURL : string) : Values :=
  {[ "grant_type" := ["authorization_code"];
     "client_id" := [clientID];
     "code" := code;
     "scope" := [scopes];
     "redirect_uri" := [redirectURL] ]}.

Definition Login (login : AzureLoginService W S) (ctx : Context W)
  : M W S (option error) :=
  '(serverPort, err) ← call (startLoginServer rt) ev_startLoginServer;
  match err with
  | Some e => mret (Some e)
  | None =>
  let redirectURL := "http://localhost:" +:+ Itoa serverPort in
  call (openAzureLoginPage (svc_apiHelper login) redirectURL)
       (ev_openAzureLoginPage redirectURL);;
  sel ← call (select ctx) ev_select;
  match sel with
  | ctx_Done => mret None
  | recv_queryCh qsValues =>
  match qsValues !! "error" with
  | Some errorMsg => mret (Some (fmt_Errorf "login failed : %s" [fmt.strs errorMsg]))
  | None =>
  match qsValues !! "code" with
  | None => mret (Some ErrLoginFailed)
  | Some code =>
  let data := Login_data code redirectURL in
  '(token, err) ← call (queryToken (svc_apiHelper login) data "organizations")
                       (ev_queryToken data "organizations");
  match err with
  | Some e => mret (Some (errors_Wrap e "Access token request failed"))
  | None =>
  let header := fmt.Sprintf "Bearer %s" [fmt.str (AccessToken token)] in
  '(bits, statusCode, err) ←
      call (queryAuthorizationAPI (svc_apiHelper login) authorizationURL header)
           (ev_queryAuthorizationAPI authorizationURL header);
  match err with
  | Some e => mret (Some (errors_Wrap e "login failed"))
  | None =>
  if bool_decide (statusCode = 200) then
    let '(tenantResult, err) := json_Unmarshal rt bits in
    match err with
    | Some e => mret (Some (errors_Wrap e "login failed"))
    | None =>
    match Value tenantResult with
    | [] => panic "runtime error: index out of range [0] with length 0"
    | v0 :: _ =>
    let tenantID := TenantID v0 in
    '(tenantToken, err) ← refreshToken login (RefreshToken token) tenantID;
    match err with
    | Some e => mret (Some (errors_Wrap e "login failed"))
    | None =>
    let loginInfo := {| TokenInfo_TenantID := tenantID; TokenInfo_Token := tenantToken |} in
    err ← do_writeLoginInfo (svc_tokenStore login) loginInfo;
    match err with
    | Some e => mret (Some (errors_Wrap e "login failed"))
    | None =>
    Println "Login Succeeded";;
    mret None
    end end end end
  else mret (Some (fmt_Errorf ("login failed : " +:+ bits) []))
  end end end end end end.

Definition GetValidToken (login : AzureLoginService W S)
  : M W S (oauth2.Token * option error) :=
  '(loginInfo, err) ← do_readToken (svc_tokenStore login);
  match err with
  | Some e => mret (oauth2.zero, Some e)
  | None =>
  let token := TokenInfo_Token loginInfo in
  now ← Now;
  if oauth2.Valid token now then mret (token, None)
  else
  let tenantID := TokenInfo_TenantID loginInfo in
  '(token, err) ← refreshToken login (oauth2.RefreshToken token) tenantID;
  match err with
  | Some e =>
      mret (oauth2.zero,
            Some (errors_Wrap e
              "access token request failed. Maybe you need to login to azure again."))
  | None =>
  err ← do_writeLoginInfo (svc_tokenStore login)
          {| TokenInfo_TenantID := tenantID; TokenInfo_Token := token |};
  match err with
  | Some e => mret (oauth2.zero, Some e)
  | None => mret (token, None)
  end end end.

(** [log.Fatal]: prints and ends the process with status 1. *)
Definition log_Fatal {A} (err : error) : ext W A := fun w => (Exited 1, w).

Definition openbrowser (url : string) : ext W unit :=
  fun w =>
    let '(err, w') :=
      if String.eqb (GOOS rt) "linux" then exec_Start rt "xdg-open" [url] w
      else if String.eqb (GOOS rt) "windows" then
        exec_Start rt "rundll32" ["url.dll,FileProtocolHandler"; url] w
      else if String.eqb (GOOS rt) "darwin" then exec_Start rt "open" [url] w
      else (Some (fmt_Errorf "unsupported platform" []), w) in
    match err with
    | Some e => log_Fatal e w'
    | None => (Returned tt, w')
    end.

(** Modelled from the spec: the method [openAzureLoginPage] of the
    production helper [azureAPIHelper], which is not in this file.  It
    opens the provider's authorization URL in the browser, embedding the
    client identifier, the redirect URI, a fresh opaque state value and the
    requested scopes. *)
Definition azureAPIHelper_openAzureLoginPage (redirectURL : string) : ext W unit :=
  fun w =>
    let '(state, w1) := randomString rt w in
    let authURL :=
      fmt.Sprintf authorizeFormat
        [fmt.str clientID; fmt.str redirectURL; fmt.str state; fmt.str scopes] in
    openbrowser authURL w1.

Definition azureAPIHelper : apiHelper W :=
  {| queryToken := http_queryToken rt;
     openAzureLoginPage := azureAPIHelper_openAzureLoginPage;
     queryAuthorizationAPI := http_queryAuthorizationAPI rt |}.

End Code.

(** ** The constructors of the service and the authorizer *)

Module adal.
(** [adal.Token] of go-autorest; [json.Number] is a string type. *)
Record Token := {
  AccessToken : string;
  RefreshToken : string;
  ExpiresIn : string;
  ExpiresOn : string;
  NotBefore : string;
  Resource : string;
  Type_ : string
}.
End adal.

Definition tokenStoreFilename : string := "dockerAccessToken.json".

(** What the constructors take from outside this file.
    - [newTokenStore]: the constructor of the token store for a path, which
      may create the directory of that path;
    - [zero_tokenStore]: [tokenStore{}];
    - [cli_AccessTokensPath]: [cli.AccessTokensPath()] of go-autorest;
    - [filepath_Dir], [filepath_Join]: the functions of path/filepath. *)
Record package (W S : Type) := {
  newTokenStore : string -> S -> (tokenStore S * option error) * S;
  zero_tokenStore : tokenStore S;
  cli_AccessTokensPath : W -> string * option error;
  filepath_Dir : string -> string;
  filepath_Join : list string -> string
}.
Arguments newTokenStore {W S} p path.
Arguments zero_tokenStore {W S} p.
Arguments cli_AccessTokensPath {W S} p w.
Arguments filepath_Dir {W S} p path.
Arguments filepath_Join {W S} p elem.

(** A nil [apiHelper]: every method call panics. *)
Definition nil_apiHelper {W} : apiHelper W :=
  let nil_dereference := "runtime error: invalid memory address or nil pointer dereference" in
  {| queryToken := fun _ _ w => (Panicked nil_dereference, w);
     openAzureLoginPage := fun _ w => (Panicked nil_dereference, w);
     queryAuthorizationAPI := fun _ _ w => (Panicked nil_dereference, w) |}.

Section Constructors.
Context {W S : Type}.
Variable rt : runtime W.
Variable pkg : package W S.

(** [AzureLoginService{}] *)
Definition zero_AzureLoginService : AzureLoginService W S :=
  {| svc_tokenStore := zero_tokenStore pkg; svc_apiHelper := nil_apiHelper |}.

Definition newAzureLoginServiceFromPath (tokenStorePath : string) (helper : apiHelper W)
  : M W S (AzureLoginService W S * option error) :=
  fun s =>
    let '((store, err), f) := newTokenStore pkg tokenStorePath (files s) in
    let s1 := mkState (world s) f (trace s) in
    match err with
    | Some e => (Returned (zero_AzureLoginService, Some e), s1)
    | None => (Returned ({| svc_tokenStore := store; svc_apiHelper := helper |}, None), s1)
    end.

Definition getTokenStorePath : M W S string :=
  fun s =>
    let '(cliPath, _) := cli_AccessTokensPath pkg (world s) in
    (Returned (filepath_Join pkg [filepath_Dir pkg cliPath; tokenStoreFilename]), s).

Definition NewAzureLoginService : M W S (AzureLoginService W S * option error) :=
  tokenStorePath ← getTokenStorePath;
  newAzureLoginServiceFromPath tokenStorePath (azureAPIHelper rt).

(** The authorizer is the bearer authorizer around the token built here; it
    is given as that token, [None] standing for a nil authorizer. *)
Definition NewAuthorizerFromLogin : M W S (option adal.Token * option error) :=
  '(login, err) ← NewAzureLoginService;
  match err with
  | Some e => mret (None, Some e)
  | None =>
  '(oauthToken, err) ← GetValidToken rt login;
  match err with
  | Some e => mret (None, Some e)
  | None =>
  now ← Now rt;
  let token :=
    {| adal.AccessToken := oauth2.AccessToken oauthToken;
       adal.Type_ := oauth2.TokenType oauthToken;
       adal.ExpiresIn :=
         Itoa (time.int (time.Seconds (time.Sub (oauth2.Expiry oauthToken) now)));
       adal.ExpiresOn :=
         Itoa (time.int (time.Seconds (time.Sub (oauth2.Expiry oauthToken) date.UnixEpoch)));
       adal.RefreshToken := EmptyString;
       adal.Resource := EmptyString;
       adal.NotBefore := EmptyString |} in
  mret (Some token, None)
  end end.

End Constructors.

(** ** Reading the log *)

(** The calls that go over the network. *)
Definition is_network (e : event) : bool :=
  match e with
  | ev_queryToken _ _ _ | ev_queryAuthorizationAPI _ _ _ => true
  | _ => false
  end.

Definition is_write (e : event) : bool :=
  match e with ev_writeLoginInfo _ _ => true | _ => false end.

(** The record [toOAuthToken] builds when the clock reads [now]. *)
Definition oauthToken_at (now : time.Time) (token : azureToken) : oauth2.Token :=
  {| oauth2.AccessToken := AccessToken token;
     oauth2.TokenType := Type_ token;
     oauth2.RefreshToken := RefreshToken token;
     oauth2.Expiry := time.Add now (time.mul (ExpiresIn token) time.Second) |}.

Definition is_start (e : event) : bool :=
  match e with ev_startLoginServer _ => true | _ => false end.

Definition is_open (e : event) : bool :=
  match e with ev_openAzureLoginPage _ _ => true | _ => false end.

Definition is_select (e : event) : bool :=
  match e with ev_select _ => true | _ => false end.

Definition is_token_request (e : event) : bool :=
  match e with ev_queryToken _ _ _ => true | _ => false end.

Definition is_discovery (e : event) : bool :=
  match e with ev_queryAuthorizationAPI _ _ _ => true | _ => false end.

Definition is_read (e : event) : bool :=
  match e with ev_readToken _ => true | _ => false end.

(** How many events of a kind a log has. *)
Definition count (kind : event -> bool) (log : list event) : nat :=
  length (List.filter kind log).

(** A text without the character [%]: a format without verbs. *)
Fixpoint plain (s : string) : bool :=
  match s with
  | EmptyString => true
  | String c rest => negb (Ascii.eqb c "%") && plain rest
  end.

(** The steps of [Login] that make it fail: a callback with an [error] key
    or without a [code] key, a listener that did not start, a token request
    (code exchange or tenant-scoped refresh) that returned an error, a
    tenant discovery that returned an error, another status than 200, or a
    body that does not decode. *)
Definition failed_step {W} (rt : runtime W) (e : event) : bool :=
  match e with
  | ev_startLoginServer (Returned (_, Some _)) => true
  | ev_select (Returned (recv_queryCh qsValues)) =>
      bool_decide (is_Some (qsValues !! "error")) || bool_decide (qsValues !! "code" = None)
  | ev_queryToken _ _ (Returned (_, Some _)) => true
  | ev_queryAuthorizationAPI _ _ (Returned (bits, statusCode, err)) =>
      bool_decide (is_Some err) || negb (bool_decide (statusCode = 200))
      || bool_decide (is_Some (json_Unmarshal rt bits).2)
  | _ => false
  end.

(** The browser cannot be opened for [url] in world [w]: the command of the
    platform fails to start (leaving the world [w']), or [runtime.GOOS] is
    none of the three platforms. *)
Inductive launch_fails {W} (rt : runtime W) (url : string) (w : W) : W -> Prop :=
| launch_fails_linux e w' :
    GOOS rt = "linux" ->
    exec_Start rt "xdg-open" [url] w = (Some e, w') ->
    launch_fails rt url w w'
| launch_fails_windows e w' :
    GOOS rt = "windows" ->
    exec_Start rt "rundll32" ["url.dll,FileProtocolHandler"; url] w = (Some e, w') ->
    launch_fails rt url w w'
| launch_fails_darwin e w' :
    GOOS rt = "darwin" ->
    exec_Start rt "open" [url] w = (Some e, w') ->
    launch_fails rt url w w'
| launch_fails_unsupported :
    GOOS rt <> "linux" -> GOOS rt <> "windows" -> GOOS rt <> "darwin" ->
    launch_fails rt url w w.

(** The URL the production helper opens for a redirect URI and a state. *)
Definition authURL (redirectURL state : string) : string :=
  fmt.Sprintf authorizeFormat
    [fmt.str clientID; fmt.str redirectURL; fmt.str state; fmt.str scopes].

(** ** A scripted world, for running the code on concrete inputs *)

Module Script.

(** The double quote, and the document the tenants API answers with:
    an object whose member [value] lists objects with a [tenantId]. *)
Definition dq : string := String (ascii_of_nat 34) EmptyString.

Definition tenant_json (id : string) : string :=
  "{" +:+ dq +:+ "tenantId" +:+ dq +:+ ":" +:+ dq +:+ id +:+ dq +:+ "}".

Definition tenants_json (ids : list string) : string :=
  "{" +:+ dq +:+ "value" +:+ dq +:+ ":[" +:+ fmt.join "," (tenant_json <$> ids) +:+ "]}".

(** A decoder for the documents [tenants_json ids] with at most two
    tenants named [t1], [t2]; every other input is reported as malformed. *)
Definition decode (bits : string) : tenantResult * option error :=
  let known := [ []; ["t1"]; ["t1"; "t2"] ] in
  match List.find (fun ids => String.eqb bits (tenants_json ids)) known with
  | Some ids => ({| Value := (fun id => {| TenantID := id |}) <$> ids |}, None)
  | None => ({| Value := [] |}, Some (errors_New "invalid character"))
  end.

Record outside := {
  now : time.Time;
  cancelled : bool;
  chan : option Values;
  later : option (bool * option Values);
  token_replies : list (azureToken * option error);
  tenants_reply : string * Z * option error;
  browser_error : option error;
  server : Z * option error
}.

Definition zero_azureToken : azureToken :=
  {| Type_ := EmptyString; Scope := EmptyString; ExpiresIn := 0; ExtExpiresIn := 0;
     AccessToken := EmptyString; RefreshToken := EmptyString; Foci := EmptyString |}.

Definition set_chan (q : option Values) (w : outside) : outside :=
  {| now := now w; cancelled := cancelled w; chan := q; later := later w;
     token_replies := token_replies w; tenants_reply := tenants_reply w;
     browser_error := browser_error w; server := server w |}.

Definition wake (w : outside) : option outside :=
  match later w with
  | None => None
  | Some (c, q) =>
      Some {| now := now w; cancelled := c; chan := q; later := None;
              token_replies := token_replies w; tenants_reply := tenants_reply w;
              browser_error := browser_error w; server := server w |}
  end.

Definition next_token (w : outside) : outcome (azureToken * option error) * outside :=
  match token_replies w with
  | [] => (Returned (zero_azureToken, Some (errors_New "connection refused")), w)
  | r :: rest =>
      (Returned r,
       {| now := now w; cancelled := cancelled w; chan := chan w; later := later w;
          token_replies := rest; tenants_reply := tenants_reply w;
          browser_error := browser_error w; server := server w |})
  end.

Definition rt : runtime outside :=
  {| GOOS := "linux";
     exec_Start := fun _ _ w => (browser_error w, w);
     time_Now := now;
     startLoginServer := fun w => (Returned (server w), w);
     queryCh := chan;
     queryCh_take := set_chan None;
     park := wake;
     pick := fun _ => true;
     json_Unmarshal := decode;
     randomString := fun w => ("q8Zk2mXw0a", w);
     http_queryToken := fun _ _ => next_token;
     http_queryAuthorizationAPI := fun _ _ w => (Returned (tenants_reply w), w) |}.

(** The store file: its record if there is one, and whether it can be
    written. *)
Definition file : Type := option TokenInfo * bool.

Definition store : tokenStore file :=
  {| readToken := fun f : file =>
       match f.1 with
       | Some info => (info, None)
       | None => ({| TokenInfo_TenantID := EmptyString; TokenInfo_Token := oauth2.zero |},
                  Some (errors_New "no such file"))
       end;
     writeLoginInfo := fun info (f : file) =>
       if f.2 then (None, (Some info, true))
       else (Some (errors_New "permission denied"), f) |}.

Definition login : AzureLoginService outside file :=
  {| svc_tokenStore := store; svc_apiHelper := azureAPIHelper rt |}.

Definition ctx : Context outside := cancelled.

Definition start (w : outside) (f : file) : state outside file := mkState w f [].

(** Provider answers. *)
Definition tok1 : azureToken :=
  {| Type_ := "Bearer"; Scope := scopes; ExpiresIn := 3600; ExtExpiresIn := 3600;
     AccessToken := "at1"; RefreshToken := "rt1"; Foci := "1" |}.
Definition tok2 : azureToken :=
  {| Type_ := "Bearer"; Scope := scopes; ExpiresIn := 3599; ExtExpiresIn := 3599;
     AccessToken := "at2"; RefreshToken := "rt2"; Foci := "1" |}.
(** An answer whose lifetime, 9223372037 s, is more nanoseconds than an
    [int64] holds. *)
Definition tok_long : azureToken :=
  {| Type_ := "Bearer"; Scope := scopes; ExpiresIn := 9223372037;
     ExtExpiresIn := 9223372037;
     AccessToken := "at3"; RefreshToken := "rt3"; Foci := "1" |}.

(** Callback queries. *)
Definition qs_code : Values := {[ "code" := ["abc"]; "state" := ["q8Zk2mXw0a"] ]}.
Definition qs_denied : Values :=
  {[ "error" := ["access_denied"]; "state" := ["q8Zk2mXw0a"] ]}.
Definition qs_both : Values := {[ "error" := ["access_denied"]; "code" := ["abc"] ]}.
Definition qs_bare : Values := {[ "state" := ["q8Zk2mXw0a"] ]}.

Definition now0 : time.Time := 63800000000000000000.

(** A world in which the listener is up on port 8080, the browser opens,
    [q] is what the channel holds, the token endpoint answers [replies] in
    turn and the tenants API answers [tenants]. *)
Definition world0 (q : option Values) (replies : list (azureToken * option error))
    (tenants : string * Z * option error) : outside :=
  {| now := now0; cancelled := false; chan := q; later := None;
     token_replies := replies; tenants_reply := tenants;
     browser_error := None; server := (8080, None) |}.

(** The same with the login cancelled and nothing in the channel. *)
Definition world_cancelled : outside :=
  {| now := now0; cancelled := true; chan := None; later := None;
     token_replies := [(tok1, None); (tok2, None)];
     tenants_reply := (tenants_json ["t1"], 200, None);
     browser_error := None; server := (8080, None) |}.

(** The same with a browser that cannot be started. *)
Definition world_no_browser : outside :=
  {| now := now0; cancelled := false; chan := Some qs_code; later := None;
     token_replies := [(tok1, None); (tok2, None)];
     tenants_reply := (tenants_json ["t1"], 200, None);
     browser_error := Some (errors_New "exec: xdg-open: executable file not found in $PATH");
     server := (8080, None) |}.

(** A stored credential that expires [d] nanoseconds after [now0]. *)
Definition cred (d : Z) : TokenInfo :=
  {| TokenInfo_TenantID := "t1";
     TokenInfo_Token :=
       {| oauth2.AccessToken := "at0"; oauth2.TokenType := "Bearer";
          oauth2.RefreshToken := "rt0"; oauth2.Expiry := now0 + d |} |}.

Definition old_cred : file := (Some (cred 3600000000000), true).

(** A stored record without an access token, with an expiry an hour ahead. *)
Definition cred_blank : TokenInfo :=
  {| TokenInfo_TenantID := "t1";
     TokenInfo_Token :=
       {| oauth2.AccessToken := EmptyString; oauth2.TokenType := "Bearer";
          oauth2.RefreshToken := "rt0"; oauth2.Expiry := now0 + 3600000000000 |} |}.

Definition rejected : azureToken * option error :=
  (zero_azureToken, Some (errors_New "invalid_grant")).

Definition replies : list (azureToken * option error) := [(tok1, None); (tok2, None)].

(** A login that receives the callback query [q] while the tenants API
    answers [tenants]; the store holds an earlier credential. *)
Definition login_state (q : Values) (tenants : string * Z * option error)
  : state outside file :=
  start (world0 (Some q) replies tenants) old_cred.

(** A call of [GetValidToken] with the credential [info] in a store that
    can be written or not, the token endpoint answering [answers]. *)
Definition token_state (info : TokenInfo) (writable : bool)
    (answers : list (azureToken * option error)) : state outside file :=
  start (world0 None answers (tenants_json ["t1"], 200, None)) (Some info, writable).

End Script.

(** ** A scripted host, for running the constructors *)

Module Host.

(** Stand-ins for [filepath.Dir] and [filepath.Join], which agree with them
    on clean slash-separated paths: [Dir] drops the last element, [Join]
    puts a slash between the non-empty elements. *)
Fixpoint before_last_slash (path : string) : option string :=
  match path with
  | EmptyString => None
  | String c rest =>
      match before_last_slash rest with
      | Some d => Some (String c d)
      | None => if Ascii.eqb c "/" then Some EmptyString else None
      end
  end.

Definition Dir (path : string) : string :=
  match before_last_slash path with
  | Some EmptyString => "/"
  | Some d => d
  | None => "."
  end.

Definition Join (elem : list string) : string :=
  fmt.join "/" (List.filter (fun e => negb (String.eqb e EmptyString)) elem).

(** The zero store has no path: nothing can be read or written. *)
Definition no_store : tokenStore Script.file :=
  {| readToken := fun _ =>
       ({| TokenInfo_TenantID := EmptyString; TokenInfo_Token := oauth2.zero |},
        Some (errors_New "open : no such file or directory"));
     writeLoginInfo := fun _ f =>
       (Some (errors_New "open : no such file or directory"), f) |}.

(** A host whose Azure CLI keeps its tokens at [cliPath], and on which
    stores can be created under /home/ only. *)
Definition pkg (cliPath : string) : package Script.outside Script.file :=
  {| newTokenStore := fun path f =>
       if String.prefix "/home/" path then ((Script.store, None), f)
       else ((no_store, Some (errors_New "mkdir /root/.azure: permission denied")), f);
     zero_tokenStore := no_store;
     cli_AccessTokensPath := fun _ => (cliPath, None);
     filepath_Dir := Dir;
     filepath_Join := Join |}.

Definition home : string := "/home/dev/.azure/accessTokens.json".
Definition elsewhere : string := "/root/.azure/accessTokens.json".

(** A world that never wakes a goroutine waiting for the callback. *)
Definition world_silent : Script.outside :=
  Script.world0 None Script.replies (Script.tenants_json ["t1"], 200, None).

(** An answer that lives five seconds. *)
Definition tok_short : azureToken :=
  {| Type_ := "Bearer"; Scope := scopes; ExpiresIn := 5; ExtExpiresIn := 5;
     AccessToken := "at4"; RefreshToken := "rt4"; Foci := "1" |}.

(** A login whose code exchange the provider rejects. *)
Definition login_rejected : state Script.outside Script.file :=
  Script.start
    (Script.world0 (Some Script.qs_code) [Script.rejected]
       (Script.tenants_json ["t1"], 200, None))
    Script.old_cred.

(** A login that goes through. *)
Definition login_ok : state Script.outside Script.file :=
  Script.login_state Script.qs_code (Script.tenants_json ["t1"; "t2"], 200, None).

(** The credential a login or a refresh that is answered with [tok2]
    writes. *)
Definition cred2 : TokenInfo :=
  {| TokenInfo_TenantID := "t1"; TokenInfo_Token := oauthToken_at Script.now0 Script.tok2 |}.

(** A call with nothing in the store. *)
Definition not_logged_in : state Script.outside Script.file :=
  Script.start (Script.world0 None Script.replies (Script.tenants_json ["t1"], 200, None))
    (None, true).

(** A call with an expired credential, the refresh being answered by
    [answer]. *)
Definition expired_state (answer : azureToken) : state Script.outside Script.file :=
  Script.token_state (Script.cred (-1000000000)) true [(answer, None)].

(** A call with a credential that is good for an hour. *)
Definition valid_state : state Script.outside Script.file :=
  Script.token_state (Script.cred 3600000000000) true Script.replies.

(** The callback that is on its way reaches the channel. *)
Definition deliver (w : Script.outside) : Script.outside :=
  match Script.later w with
  | Some (_, q) =>
      {| Script.now := Script.now w; Script.cancelled := Script.cancelled w;
         Script.chan := q; Script.later := None;
         Script.token_replies := Script.token_replies w;
         Script.tenants_reply := Script.tenants_reply w;
         Script.browser_error := Script.browser_error w;
         Script.server := Script.server w |}
  | None => w
  end.

(** A runtime in which the redirect reaches the listener while the browser
    is being started, and in which the [select], finding both cases ready,
    takes the callback. *)
Definition rt_race : runtime Script.outside :=
  {| GOOS := "linux";
     exec_Start := fun _ _ w => (Script.browser_error w, deliver w);
     time_Now := Script.now;
     startLoginServer := fun w => (Returned (Script.server w), w);
     queryCh := Script.chan;
     queryCh_take := Script.set_chan None;
     park := Script.wake;
     pick := fun _ => false;
     json_Unmarshal := Script.decode;
     randomString := fun w => ("q8Zk2mXw0a", w);
     http_queryToken := fun _ _ => Script.next_token;
     http_queryAuthorizationAPI := fun _ _ w => (Returned (Script.tenants_reply w), w) |}.

Definition login_race : AzureLoginService Script.outside Script.file :=
  {| svc_tokenStore := Script.store; svc_apiHelper := azureAPIHelper rt_race |}.

(** A login that is already cancelled when it starts, with nothing in the
    channel and the redirect with the query [q] still on its way. *)
Definition cancelled_first (q : Values) : state Script.outside Script.file :=
  Script.start
    {| Script.now := Script.now0; Script.cancelled := true; Script.chan := None;
       Script.later := Some (true, Some q);
       Script.token_replies := Script.replies;
       Script.tenants_reply := (Script.tenants_json ["t1"], 200, None);
       Script.browser_error := None; Script.server := (8080, None) |}
    Script.old_cred.

End Host.

(** * Properties *)

(** ** Tactics for following a run *)

Ltac run_unfold H :=
  unfold Login, GetValidToken, refreshToken, toOAuthToken, Now, call, do_readToken,
    do_writeLoginInfo, Println, panic in H;
  unfold mbind, M_bind, mret, M_ret in H; simpl in H.

(** Splits on the innermost scrutinee of the run in [H]. *)
Ltac run_step H :=
  match type of H with
  | context [match ?x with _ => _ end] =>
      lazymatch x with
      | context [match _ with _ => _ end] => fail
      | _ => destruct x eqn:?; simpl in H
      end
  end.

Ltac run_cases H := run_unfold H; repeat run_step H.

(** Puts a log [(l ++ [a]) ++ [b] ...] in the form [l ++ [a; b; ...]] and
    reads the new events off an equation [l ++ evs = l ++ [...]]. *)
Ltac log_norm :=
  repeat rewrite <- app_assoc in *; simpl in *;
  repeat match goal with
         | H : ?l ++ _ = ?l ++ _ |- _ => apply app_inv_head in H
         end.

(** Decides membership of an event in an explicit log. *)
Ltac log_mem H :=
  repeat (apply elem_of_cons in H as [H | H]; [try discriminate H | ]);
  try (apply elem_of_nil in H; destruct H).

(** ** Facts about the library functions *)

Lemma expiryDelta_value : oauth2.expiryDelta = 10000000000.
Proof. reflexivity. Qed.

(** [Token.Valid] in arithmetic: an access token is present, and the expiry
    is the zero time or lies at least ten seconds ahead. *)
Lemma Valid_spec (t : oauth2.Token) (now : time.Time) :
  oauth2.Valid t now = true <->
  oauth2.AccessToken t <> EmptyString /\
  (oauth2.Expiry t = 0 \/ now + 10000000000 <= oauth2.Expiry t).
Proof.
  unfold oauth2.Valid, oauth2.expired, time.IsZero, time.Before, time.Add, time.Round0.
  replace (time.neg oauth2.expiryDelta) with (-10000000000) by reflexivity.
  rewrite andb_true_iff, !negb_true_iff, bool_decide_eq_false.
  destruct (bool_decide (oauth2.Expiry t = 0)) eqn:E.
  - apply bool_decide_eq_true in E. intuition.
  - apply bool_decide_eq_false in E. rewrite bool_decide_eq_false. intuition lia.
Qed.

(** An expired token is not valid. *)
Lemma expired_not_Valid (t : oauth2.Token) (now : time.Time) :
  oauth2.expired t now = true -> oauth2.Valid t now = false.
Proof.
  intros H. unfold oauth2.Valid. rewrite H. apply andb_false_r.
Qed.

(** A token whose expiry has passed is expired, unless the expiry is the
    zero time, which stands for a token that does not expire. *)
Lemma past_expiry_expired (t : oauth2.Token) (now : time.Time) :
  oauth2.Expiry t <> 0 -> oauth2.Expiry t <= now -> oauth2.expired t now = true.
Proof.
  intros Hnonzero Hpast.
  unfold oauth2.expired, time.IsZero, time.Before, time.Add, time.Round0.
  replace (time.neg oauth2.expiryDelta) with (-10000000000) by reflexivity.
  rewrite bool_decide_eq_false_2 by exact Hnonzero.
  apply bool_decide_eq_true. lia.
Qed.

(** A product of durations that fits in 64 bits is the exact product. *)
Lemma mul_exact (a b : time.Duration) :
  - 2 ^ 63 <= a * b < 2 ^ 63 -> time.mul a b = a * b.
Proof.
  intros H. unfold time.mul, time.int64.
  rewrite Z.mod_small; lia.
Qed.

Lemma seconds_exact (n : Z) :
  -9223372036 <= n <= 9223372036 -> time.mul n time.Second = n * 1000000000.
Proof.
  intros H. unfold time.Second. apply mul_exact. lia.
Qed.

Lemma append_empty_r (s : string) : s +:+ EmptyString = s.
Proof.
  induction s as [|c s IH]; [reflexivity | ].
  change (String c (s +:+ EmptyString) = String c s).
  rewrite IH. reflexivity.
Qed.

(** The text of the error built from the value of the [error] key. *)
Lemma Sprintf_login_failed (errorMsg : list string) :
  fmt.Sprintf "login failed : %s" [fmt.strs errorMsg] =
  "login failed : [" +:+ fmt.join " " errorMsg +:+ "]".
Proof. simpl. rewrite append_empty_r. reflexivity. Qed.

(** The header sent to the tenants API. *)
Lemma Sprintf_Bearer (accessToken : string) :
  fmt.Sprintf "Bearer %s" [fmt.str accessToken] = "Bearer " +:+ accessToken.
Proof. simpl. rewrite append_empty_r. reflexivity. Qed.

Section Facts.
Context {W S : Type}.
Variable rt : runtime W.
Variable login : AzureLoginService W S.

Lemma toOAuthToken_run (token : azureToken) (s : state W S) :
  toOAuthToken rt token s = (Returned (oauthToken_at (time_Now rt (world s)) token), s).
Proof. reflexivity. Qed.

(** [refreshToken] makes one token request, with the refresh grant, for
    the given tenant, and converts the answer. *)
Lemma refreshToken_run (currentRefreshToken tenantID : string) (s : state W S) :
  let data := refreshToken_data currentRefreshToken in
  let '(r, w) := queryToken (svc_apiHelper login) data tenantID (world s) in
  let s1 := mkState w (files s) (trace s ++ [ev_queryToken data tenantID r]) in
  refreshToken rt login currentRefreshToken tenantID s =
    match r with
    | Returned (token, None) => (Returned (oauthToken_at (time_Now rt w) token, None), s1)
    | Returned (_, Some e) => (Returned (oauth2.zero, Some e), s1)
    | Panicked msg => (Panicked msg, s1)
    | Exited code => (Exited code, s1)
    | Blocked => (Blocked, s1)
    end.
Proof.
  simpl. unfold refreshToken, call, mbind, M_bind. simpl.
  destruct (queryToken _ _ _ _) as [[[token [e|]]| | |] w]; reflexivity.
Qed.

End Facts.

(** The form [refreshToken] submits: the refresh grant, the client id, the
    fixed scope and the given refresh token, and nothing else. *)
Lemma refreshToken_data_form (currentRefreshToken : string) :
  refreshToken_data currentRefreshToken !! "grant_type" = Some ["refresh_token"] /\
  refreshToken_data currentRefreshToken !! "refresh_token" = Some [currentRefreshToken] /\
  refreshToken_data currentRefreshToken !! "scope" = Some [scopes] /\
  refreshToken_data currentRefreshToken !! "client_id" = Some [clientID] /\
  size (refreshToken_data currentRefreshToken) = 4%nat.
Proof. split_and!; vm_compute; reflexivity. Qed.

(** ** The select of Login *)

Section Select_facts.
Context {W : Type}.
Variable rt : runtime W.

(** Cancelled, and nothing in the channel: the cancellation is taken. *)
Lemma select_cancelled (ctx : Context W) (w w' : W) :
  wakeup rt ctx w = Some w' -> ctx w' = true -> queryCh rt w' = None ->
  select rt ctx w = (Returned ctx_Done, w').
Proof.
  intros Hwake Hdone Hempty. unfold select. rewrite Hwake, Hdone, Hempty. reflexivity.
Qed.

(** A callback in the channel and no cancellation: the callback is taken. *)
Lemma select_callback (ctx : Context W) (w w' : W) (qsValues : Values) :
  wakeup rt ctx w = Some w' -> ctx w' = false -> queryCh rt w' = Some qsValues ->
  select rt ctx w = (Returned (recv_queryCh qsValues), queryCh_take rt w').
Proof.
  intros Hwake Hdone Hfull. unfold select. rewrite Hwake, Hdone, Hfull. reflexivity.
Qed.

(** Both ready: either may be taken, so a cancellation does not by itself
    keep a callback that is already in the channel from being handled. *)
Lemma select_both_ready (ctx : Context W) (w : W) (qsValues : Values) :
  ctx w = true -> queryCh rt w = Some qsValues ->
  select rt ctx w =
    if pick rt w then (Returned ctx_Done, w)
    else (Returned (recv_queryCh qsValues), queryCh_take rt w).
Proof.
  intros Hdone Hfull. unfold select, wakeup, ready.
  rewrite Hdone. simpl. rewrite Hdone, Hfull. reflexivity.
Qed.

(** Nothing ready and nobody to wake the goroutine: [select] never proceeds. *)
Lemma select_blocked (ctx : Context W) (w : W) :
  ctx w = false -> queryCh rt w = None -> park rt w = None ->
  select rt ctx w = (Blocked, w).
Proof.
  intros Hdone Hempty Hpark. unfold select, wakeup, ready.
  rewrite Hdone, Hempty. simpl. rewrite Hpark. reflexivity.
Qed.

End Select_facts.

(** ** GetValidToken *)

Section GetValidToken_properties.
Context {W S : Type}.
Variable rt : runtime W.
Variable login : AzureLoginService W S.

(** What the code checks: a token that [Token.Valid] accepts is returned
    as it is, after the read and nothing else. *)
Lemma GetValidToken_valid (s : state W S) (info : TokenInfo) :
  readToken (svc_tokenStore login) (files s) = (info, None) ->
  oauth2.Valid (TokenInfo_Token info) (time_Now rt (world s)) = true ->
  GetValidToken rt login s =
    (Returned (TokenInfo_Token info, None),
     mkState (world s) (files s) (trace s ++ [ev_readToken (info, None)])).
Proof.
  intros Hread Hvalid.
  unfold GetValidToken, do_readToken, Now, mbind, M_bind, mret, M_ret. simpl.
  rewrite Hread. simpl. rewrite Hvalid. reflexivity.
Qed.

(** A token that [Token.Valid] rejects leads to one refresh request; what
    follows depends on its answer alone. *)
Lemma GetValidToken_invalid (s : state W S) (info : TokenInfo) :
  readToken (svc_tokenStore login) (files s) = (info, None) ->
  oauth2.Valid (TokenInfo_Token info) (time_Now rt (world s)) = false ->
  let tenantID := TokenInfo_TenantID info in
  let data := refreshToken_data (oauth2.RefreshToken (TokenInfo_Token info)) in
  let '(r, w) := queryToken (svc_apiHelper login) data tenantID (world s) in
  let log := (trace s ++ [ev_readToken (info, None); ev_queryToken data tenantID r])%list in
  GetValidToken rt login s =
    match r with
    | Returned (token, None) =>
        let new := {| TokenInfo_TenantID := tenantID;
                      TokenInfo_Token := oauthToken_at (time_Now rt w) token |} in
        let '(werr, f) := writeLoginInfo (svc_tokenStore login) new (files s) in
        (Returned (match werr with
                   | None => (TokenInfo_Token new, None)
                   | Some e => (oauth2.zero, Some e)
                   end),
         mkState w f (log ++ [ev_writeLoginInfo new werr])%list)
    | Returned (_, Some e) =>
        (Returned (oauth2.zero,
           Some (errors_Wrap e
             "access token request failed. Maybe you need to login to azure again.")),
         mkState w (files s) log)
    | Panicked msg => (Panicked msg, mkState w (files s) log)
    | Exited code => (Exited code, mkState w (files s) log)
    | Blocked => (Blocked, mkState w (files s) log)
    end.
Proof.
  intros Hread Hvalid. simpl.
  unfold GetValidToken, do_readToken, Now, mbind at 1 2, M_bind at 1 2, mret, M_ret. simpl.
  rewrite Hread. simpl. rewrite Hvalid.
  unfold mbind, M_bind.
  pose proof (refreshToken_run rt login
                (oauth2.RefreshToken (TokenInfo_Token info)) (TokenInfo_TenantID info)
                (mkState (world s) (files s) (trace s ++ [ev_readToken (info, None)])))
    as Hr.
  simpl in Hr.
  destruct (queryToken _ _ _ _) as [r w].
  rewrite Hr. clear Hr.
  destruct r as [[token [e|]]| | |]; simpl; rewrite <- ?app_assoc; simpl; try reflexivity.
  unfold do_writeLoginInfo. simpl.
  destruct (writeLoginInfo _ _ _) as [[e|] f]; simpl; rewrite <- ?app_assoc; reflexivity.
Qed.

End GetValidToken_properties.

Section GetValidToken_claims.
Context {W S : Type}.
Variable rt : runtime W.
Variable login : AzureLoginService W S.

(** C2 (as amended): for every stored credential that has an access token
    and whose expiry is the zero time or lies at least ten seconds (the
    OAuth2 library's [expiryDelta]) after the time of the call,
    [GetValidToken] returns that token unchanged; the read of the store is
    the only call it makes, so no network call is issued and neither the
    world nor the store changes. *)
Theorem GetValidToken_unexpired_no_network_call (s : state W S) (info : TokenInfo) :
  readToken (svc_tokenStore login) (files s) = (info, None) ->
  oauth2.AccessToken (TokenInfo_Token info) <> EmptyString ->
  (oauth2.Expiry (TokenInfo_Token info) = 0 \/
   time_Now rt (world s) + 10000000000 <= oauth2.Expiry (TokenInfo_Token info)) ->
  GetValidToken rt login s =
    (Returned (TokenInfo_Token info, None),
     mkState (world s) (files s) (trace s ++ [ev_readToken (info, None)])).
Proof.
  intros Hread Haccess Hexpiry.
  apply GetValidToken_valid; [exact Hread | ].
  apply Valid_spec. split; assumption.
Qed.

(** C3: for every stored credential whose token is not valid any more,
    [GetValidToken] makes exactly one token request: a form of four fields
    with [grant_type] refresh_token, the stored refresh token, the fixed
    scope and the client id, sent for the stored tenant.  When the request
    succeeds, the new credential (same tenant, converted token) is written
    to the store, and the token is returned once that write has succeeded.
    When the request fails, the result is the zero token with the error
    wrapped in the re-login hint, nothing is written and the store is as
    before. *)
Theorem GetValidToken_expired_refreshes_once (s s' : state W S) (info : TokenInfo)
    (out : outcome (oauth2.Token * option error)) :
  readToken (svc_tokenStore login) (files s) = (info, None) ->
  oauth2.Valid (TokenInfo_Token info) (time_Now rt (world s)) = false ->
  GetValidToken rt login s = (out, s') ->
  let tenantID := TokenInfo_TenantID info in
  exists data r evs,
    data !! "grant_type" = Some ["refresh_token"] /\
    data !! "refresh_token" = Some [oauth2.RefreshToken (TokenInfo_Token info)] /\
    data !! "scope" = Some [scopes] /\
    data !! "client_id" = Some [clientID] /\
    size data = 4%nat /\
    trace s' = trace s ++ ev_readToken (info, None) :: ev_queryToken data tenantID r :: evs /\
    (queryToken (svc_apiHelper login) data tenantID (world s)).1 = r /\
    existsb is_network evs = false /\
    (forall token, r = Returned (token, None) ->
       let new := {| TokenInfo_TenantID := tenantID;
                     TokenInfo_Token := oauthToken_at (time_Now rt (world s')) token |} in
       exists werr,
         evs = [ev_writeLoginInfo new werr] /\
         writeLoginInfo (svc_tokenStore login) new (files s) = (werr, files s') /\
         (werr = None -> out = Returned (TokenInfo_Token new, None))) /\
    (forall token e, r = Returned (token, Some e) ->
       evs = [] /\ files s' = files s /\
       out = Returned (oauth2.zero,
               Some (errors_Wrap e
                 "access token request failed. Maybe you need to login to azure again."))).
Proof.
  intros Hread Hvalid Hrun tenantID.
  pose proof (GetValidToken_invalid rt login s info Hread Hvalid) as Hspec.
  simpl in Hspec. fold tenantID in Hspec.
  destruct (refreshToken_data_form (oauth2.RefreshToken (TokenInfo_Token info)))
    as (Hgrant & Hrefresh & Hscope & Hclient & Hsize).
  set (data := refreshToken_data (oauth2.RefreshToken (TokenInfo_Token info))) in *.
  clearbody data.
  destruct (queryToken (svc_apiHelper login) data tenantID (world s)) as [r w] eqn:Hq.
  rewrite Hrun in Hspec. exists data, r. rewrite Hq. clear Hq.
  destruct r as [[token [e|]]| | |].
  - injection Hspec as -> ->. exists []. simpl.
    split_and!; try done.
    intros token' e' [= <- <-]. done.
  - destruct (writeLoginInfo _ _ _) as [werr f] eqn:Hw.
    injection Hspec as -> ->.
    exists [ev_writeLoginInfo
              {| TokenInfo_TenantID := tenantID;
                 TokenInfo_Token := oauthToken_at (time_Now rt w) token |} werr].
    simpl. rewrite <- app_assoc. simpl.
    split_and!; try done.
    intros token' [= <-]. exists werr. rewrite Hw.
    split_and!; try done. intros ->. done.
  - injection Hspec as -> ->. exists []. simpl. split_and!; done.
  - injection Hspec as -> ->. exists []. simpl. split_and!; done.
  - injection Hspec as -> ->. exists []. simpl. split_and!; done.
Qed.

(** C10: in every run of [GetValidToken] whose refresh request succeeded
    and whose write to the store failed, the result is the zero token
    together with the error of the write: the refreshed token is not
    handed to the caller. *)
Theorem GetValidToken_write_failure_returns_zero_token (s s' : state W S)
    (out : outcome (oauth2.Token * option error)) (evs : list event)
    (data : Values) (tenantID : string) (token : azureToken)
    (info : TokenInfo) (e : error) :
  GetValidToken rt login s = (out, s') ->
  trace s' = trace s ++ evs ->
  ev_queryToken data tenantID (Returned (token, None)) ∈ evs ->
  ev_writeLoginInfo info (Some e) ∈ evs ->
  out = Returned (oauth2.zero, Some e).
Proof.
  intros Hrun Hlog Hquery Hwrite.
  run_cases Hrun; injection Hrun as <- <-; log_norm; subst evs;
    log_mem Hquery; log_mem Hwrite.
  all: simplify_eq; reflexivity.
Qed.

End GetValidToken_claims.

(** ** Login *)

Section Login_claims.
Context {W S : Type}.
Variable rt : runtime W.
Variable login : AzureLoginService W S.

(** C1 (the code departs from it): in every run of [Login] whose tenant
    discovery answered with status 200 and a body that decodes to an empty
    tenant sequence, the index expression [tenantResult.Value[0]] panics
    with an index-out-of-range fault; [Login] returns no error at all. *)
Theorem Login_empty_tenant_sequence_panics (ctx : Context W) (s s' : state W S)
    (out : outcome (option error)) (evs : list event)
    (url header bits : string) (r : tenantResult) :
  Login rt login ctx s = (out, s') ->
  trace s' = trace s ++ evs ->
  ev_queryAuthorizationAPI url header (Returned (bits, 200, None)) ∈ evs ->
  json_Unmarshal rt bits = (r, None) ->
  Value r = [] ->
  out = Panicked "runtime error: index out of range [0] with length 0" /\
  (forall err, out <> Returned err).
Proof.
  intros Hrun Hlog Hev Hjson Hempty.
  run_cases Hrun; injection Hrun as <- <-; log_norm; subst evs; log_mem Hev.
  all: simplify_eq; simpl in *; try congruence.
  all: try (split; [reflexivity | intros err; discriminate]).
  all: match goal with
       | H : bool_decide (_ = _) = false |- _ =>
           apply bool_decide_eq_false in H; congruence
       end.
Qed.

(** C5 (as amended): when the listener has started, the login page has
    been opened, and at the moment the [select] proceeds the context is
    cancelled while the channel holds no callback query, [Login] returns
    [nil]; the store is the one it started with and the log has no write.
    A cancellation that fired first does not suffice: a callback that has
    reached the channel by then may be taken instead. *)
Theorem Login_cancelled_before_callback (ctx : Context W) (s : state W S)
    (serverPort : Z) (w1 w2 w3 : W) :
  let redirectURL := "http://localhost:" +:+ Itoa serverPort in
  startLoginServer rt (world s) = (Returned (serverPort, None), w1) ->
  openAzureLoginPage (svc_apiHelper login) redirectURL w1 = (Returned tt, w2) ->
  wakeup rt ctx w2 = Some w3 ->
  ctx w3 = true ->
  queryCh rt w3 = None ->
  Login rt login ctx s =
    (Returned None,
     mkState w3 (files s)
       (trace s ++ [ev_startLoginServer (Returned (serverPort, None));
                    ev_openAzureLoginPage redirectURL (Returned tt);
                    ev_select (Returned ctx_Done)])).
Proof.
  intros redirectURL Hstart Hopen Hwake Hdone Hempty.
  unfold Login, call, mbind, M_bind, mret, M_ret. simpl.
  rewrite Hstart. simpl. fold redirectURL. rewrite Hopen. simpl.
  unfold select. rewrite Hwake, Hdone, Hempty. simpl.
  rewrite <- !app_assoc. reflexivity.
Qed.

(** C6: in every run of [Login] that received a callback query: if the
    query has an [error] key, the result is the error formatted from
    "login failed : %s" and the value of that key, a login failure whose
    text ends with that value; if the query has no [code] key, the result
    is a login failure, the sentinel [ErrLoginFailed] unless the [error]
    key decided first. *)
Theorem Login_callback_error_or_missing_code (ctx : Context W) (s s' : state W S)
    (out : outcome (option error)) (evs : list event) (qsValues : Values) :
  Login rt login ctx s = (out, s') ->
  trace s' = trace s ++ evs ->
  ev_select (Returned (recv_queryCh qsValues)) ∈ evs ->
  (forall errorMsg, qsValues !! "error" = Some errorMsg ->
     out = Returned (Some (fmt_Errorf "login failed : %s" [fmt.strs errorMsg])) /\
     LoginFailed (fmt_Errorf "login failed : %s" [fmt.strs errorMsg]) = true /\
     fmt.Sprintf "login failed : %s" [fmt.strs errorMsg] =
       "login failed : [" +:+ fmt.join " " errorMsg +:+ "]") /\
  (qsValues !! "code" = None ->
     exists e, out = Returned (Some e) /\ LoginFailed e = true /\
               (qsValues !! "error" = None -> e = ErrLoginFailed)).
Proof.
  intros Hrun Hlog Hev.
  run_cases Hrun; injection Hrun as <- <-; log_norm; subst evs; log_mem Hev.
  all: simplify_eq.
  all: split; [intros errorMsg Herr | intros Hcode]; simplify_eq.
  - split_and!; [reflexivity | reflexivity | apply Sprintf_login_failed].
  - eexists. split_and!; [reflexivity | reflexivity | intros; simplify_eq].
  - eexists. split_and!; reflexivity.
Qed.

(** C9: in every run of [Login] that received a callback query with both
    an [error] key and a [code] key, the result is the failure built from
    the [error] value; no request goes over the network (the code is not
    exchanged) and the store is as before. *)
Theorem Login_error_key_precedes_code (ctx : Context W) (s s' : state W S)
    (out : outcome (option error)) (evs : list event) (qsValues : Values)
    (errorMsg code : list string) :
  Login rt login ctx s = (out, s') ->
  trace s' = trace s ++ evs ->
  ev_select (Returned (recv_queryCh qsValues)) ∈ evs ->
  qsValues !! "error" = Some errorMsg ->
  qsValues !! "code" = Some code ->
  out = Returned (Some (fmt_Errorf "login failed : %s" [fmt.strs errorMsg])) /\
  existsb is_network evs = false /\
  files s' = files s.
Proof.
  intros Hrun Hlog Hev Herr Hcode.
  run_cases Hrun; injection Hrun as <- <-; log_norm; subst evs; log_mem Hev.
  all: simplify_eq.
  split_and!; reflexivity.
Qed.

End Login_claims.

Section Login_store.
Context {W S : Type}.
Variable rt : runtime W.
Variable login : AzureLoginService W S.

(** Rewrites what the run has established into the hypothesis [H]. *)
Ltac known H :=
  repeat match goal with
         | E : _ !! _ = _ |- _ => rewrite E in H
         | E : bool_decide _ = _ |- _ => rewrite E in H
         | E : json_Unmarshal _ _ = _ |- _ => rewrite E in H
         end;
  simpl in H.

(** C4: in every run of [Login], a failed step (a callback with an [error]
    key or without a [code] key, a failed token exchange, a tenant
    discovery that failed, answered another status than 200 or does not
    decode, a failed tenant-scoped refresh) means that [Login] returns an
    error, that the log has no write and that the store is the one the run
    started with.  More generally the store only changes through a write,
    and a write is in the log only after the listener started, the page
    was opened, a callback with a code and without an error arrived, the
    code was exchanged, the discovery answered 200 with a first tenant,
    and the refresh for that tenant succeeded. *)
Theorem Login_failure_leaves_store_untouched (ctx : Context W) (s s' : state W S)
    (out : outcome (option error)) (evs : list event) :
  Login rt login ctx s = (out, s') ->
  trace s' = trace s ++ evs ->
  ((exists e, e ∈ evs /\ failed_step rt e = true) ->
     existsb is_write evs = false /\ files s' = files s /\
     exists err, out = Returned (Some err)) /\
  (existsb is_write evs = false -> files s' = files s) /\
  (existsb is_write evs = true ->
     exists serverPort qsValues code token bits r v0 rest tenantToken werr,
       evs = [ev_startLoginServer (Returned (serverPort, None));
              ev_openAzureLoginPage ("http://localhost:" +:+ Itoa serverPort) (Returned tt);
              ev_select (Returned (recv_queryCh qsValues));
              ev_queryToken (Login_data code ("http://localhost:" +:+ Itoa serverPort))
                "organizations" (Returned (token, None));
              ev_queryAuthorizationAPI authorizationURL
                (fmt.Sprintf "Bearer %s" [fmt.str (AccessToken token)])
                (Returned (bits, 200, None));
              ev_queryToken (refreshToken_data (RefreshToken token)) (TenantID v0)
                (Returned (tenantToken, None));
              ev_writeLoginInfo
                {| TokenInfo_TenantID := TenantID v0;
                   TokenInfo_Token := oauthToken_at (time_Now rt (world s')) tenantToken |}
                werr]
             ++ match werr with
                | None => [ev_Println "Login Succeeded"]
                | Some _ => []
                end /\
       qsValues !! "error" = None /\
       qsValues !! "code" = Some code /\
       json_Unmarshal rt bits = (r, None) /\
       Value r = v0 :: rest /\
       writeLoginInfo (svc_tokenStore login)
         {| TokenInfo_TenantID := TenantID v0;
            TokenInfo_Token := oauthToken_at (time_Now rt (world s')) tenantToken |}
         (files s) = (werr, files s')).
Proof.
  intros Hrun Hlog.
  run_cases Hrun; injection Hrun as <- <-; log_norm; subst evs; simpl.
  all: split_and!;
    [ intros (ev & Hin & Hfail);
      repeat (apply elem_of_cons in Hin as [-> | Hin];
              [simpl in Hfail; known Hfail; try discriminate Hfail | ]);
      try (apply elem_of_nil in Hin; destruct Hin)
    | intros Hnowrite; try discriminate Hnowrite; try reflexivity
    | intros Hwrite; try discriminate Hwrite ].
  all: try (split_and!; [reflexivity | reflexivity | eexists; reflexivity]).
  all: try match goal with
           | H : bool_decide (_ = 200) = true |- _ => apply bool_decide_eq_true in H; subst
           end.
  all: repeat match goal with u : unit |- _ => destruct u end.
  all: match goal with
       | Hstart : startLoginServer _ _ = (Returned (?port, None), _),
         Hcode : ?qs !! "code" = Some ?code,
         Hexchange : queryToken _ (Login_data _ _) _ _ = (Returned (?token, None), _),
         Hjson : json_Unmarshal _ ?bits = (?r, None),
         Hfirst : Value ?r = ?v0 :: ?rest,
         Hrefresh : queryToken _ (refreshToken_data _) _ _ = (Returned (?tenantToken, None), _),
         Hwrite : writeLoginInfo _ _ _ = (?werr, _) |- _ =>
           exists port, qs, code, token, bits, r, v0, rest, tenantToken, werr
       end.
  all: split_and!; [reflexivity | assumption ..].
Qed.

End Login_store.

(** ** refreshToken and toOAuthToken *)

Section Refresh_claims.
Context {W S : Type}.
Variable rt : runtime W.
Variable login : AzureLoginService W S.

(** C7 (as amended): every run of [refreshToken] (the one place where
    [Login] and [GetValidToken] refresh) makes one token request for the
    given tenant whose form has [grant_type] refresh_token, the fixed scope
    string and the given refresh token; it touches neither the store nor
    anything else.  A successful answer is converted field by field, and
    its expiry is the time of the conversion plus the [int64] product of
    expires-in and 10^9 nanoseconds: exactly now + expires-in seconds
    whenever expires-in is between -9223372036 and 9223372036. *)
Theorem refreshToken_request_and_expiry (currentRefreshToken tenantID : string)
    (s s' : state W S) (out : outcome (oauth2.Token * option error)) :
  refreshToken rt login currentRefreshToken tenantID s = (out, s') ->
  exists data r,
    queryToken (svc_apiHelper login) data tenantID (world s) = (r, world s') /\
    trace s' = trace s ++ [ev_queryToken data tenantID r] /\
    files s' = files s /\
    data !! "grant_type" = Some ["refresh_token"] /\
    data !! "scope" = Some [scopes] /\
    data !! "refresh_token" = Some [currentRefreshToken] /\
    data !! "client_id" = Some [clientID] /\
    forall token, r = Returned (token, None) ->
      exists t,
        out = Returned (t, None) /\
        oauth2.AccessToken t = AccessToken token /\
        oauth2.RefreshToken t = RefreshToken token /\
        oauth2.TokenType t = Type_ token /\
        oauth2.Expiry t =
          time_Now rt (world s') + time.int64 (ExpiresIn token * 1000000000) /\
        (-9223372036 <= ExpiresIn token <= 9223372036 ->
         oauth2.Expiry t = time_Now rt (world s') + ExpiresIn token * 1000000000).
Proof.
  intros Hrun.
  pose proof (refreshToken_run rt login currentRefreshToken tenantID s) as Hspec.
  simpl in Hspec.
  destruct (queryToken _ _ _ _) as [r w] eqn:Hquery.
  rewrite Hrun in Hspec.
  exists (refreshToken_data currentRefreshToken), r.
  assert (world s' = w /\
          trace s' = trace s ++
            [ev_queryToken (refreshToken_data currentRefreshToken) tenantID r] /\
          files s' = files s) as (Hw & Hlog & Hfiles).
  { destruct r as [[token [e|]]| | |]; injection Hspec as _ ->; done. }
  subst w.
  split_and!; try done.
  intros token ->. injection Hspec as -> _.
  exists (oauthToken_at (time_Now rt (world s')) token).
  split_and!; try reflexivity.
  intros Hrange. simpl. unfold time.Add.
  rewrite seconds_exact by exact Hrange. reflexivity.
Qed.

End Refresh_claims.

(** ** openbrowser *)

Section Browser_claims.
Context {W S : Type}.
Variable rt : runtime W.

(** A browser that cannot be opened ends the process: [log.Fatal]. *)
Lemma openbrowser_fatal (url : string) (w w' : W) :
  launch_fails rt url w w' -> openbrowser rt url w = (Exited 1, w').
Proof.
  intros Hfail. unfold openbrowser, log_Fatal.
  destruct Hfail as [e w' Hos Hstart | e w' Hos Hstart | e w' Hos Hstart | Hl Hw Hd].
  - rewrite Hos. simpl. rewrite Hstart. reflexivity.
  - rewrite Hos. simpl. rewrite Hstart. reflexivity.
  - rewrite Hos. simpl. rewrite Hstart. reflexivity.
  - apply String.eqb_neq in Hl, Hw, Hd. rewrite Hl, Hw, Hd. reflexivity.
Qed.

(** C8: with the production helper, when the listener has started and the
    browser cannot be opened for the authorization URL, [Login] does not
    return: the process exits with status 1 right after the one attempt to
    open the page; no [select], no request and no write follow, and the
    store is as it was. *)
Theorem Login_browser_failure_is_fatal (store : tokenStore S) (ctx : Context W)
    (s : state W S) (serverPort : Z) (state : string) (w1 w2 w3 : W) :
  let login := {| svc_tokenStore := store; svc_apiHelper := azureAPIHelper rt |} in
  let redirectURL := "http://localhost:" +:+ Itoa serverPort in
  startLoginServer rt (world s) = (Returned (serverPort, None), w1) ->
  randomString rt w1 = (state, w2) ->
  launch_fails rt (authURL redirectURL state) w2 w3 ->
  Login rt login ctx s =
    (Exited 1,
     mkState w3 (files s)
       (trace s ++ [ev_startLoginServer (Returned (serverPort, None));
                    ev_openAzureLoginPage redirectURL (Exited 1)])).
Proof.
  intros login redirectURL Hstart Hrandom Hfail.
  apply openbrowser_fatal in Hfail.
  unfold Login, call, mbind, M_bind, mret, M_ret. simpl.
  rewrite Hstart. simpl. fold redirectURL.
  unfold azureAPIHelper_openAzureLoginPage. rewrite Hrandom.
  unfold authURL in Hfail. rewrite Hfail. simpl.
  rewrite <- app_assoc. reflexivity.
Qed.

End Browser_claims.

(** * The properties on concrete runs *)

Module Runs.
Import Script.

(** A credential that expires five seconds from now is refreshed all the
    same: against C2 as written, an expiry in the future does not keep
    [GetValidToken] from the network. *)
Lemma GetValidToken_expiry_in_five_seconds_refreshes :
  let info := cred 5000000000 in
  let s := token_state info true [(tok2, None)] in
  readToken (svc_tokenStore login) (files s) = (info, None) /\
  time_Now rt (world s) < oauth2.Expiry (TokenInfo_Token info) /\
  (GetValidToken rt login s).1 <> Returned (TokenInfo_Token info, None) /\
  existsb is_network (trace (GetValidToken rt login s).2) = true /\
  files (GetValidToken rt login s).2 <> files s.
Proof.
  simpl. split_and!.
  - reflexivity.
  - vm_compute. reflexivity.
  - vm_compute. discriminate.
  - vm_compute. reflexivity.
  - vm_compute. discriminate.
Qed.

(** A record without an access token is refreshed too, whatever its expiry. *)
Lemma GetValidToken_without_access_token_refreshes :
  let s := token_state cred_blank true [(tok2, None)] in
  time_Now rt (world s) + 10000000000 <= oauth2.Expiry (TokenInfo_Token cred_blank) /\
  (GetValidToken rt login s).1 = Returned (oauthToken_at now0 tok2, None) /\
  existsb is_network (trace (GetValidToken rt login s).2) = true.
Proof.
  simpl. split_and!.
  - vm_compute. discriminate.
  - vm_compute. reflexivity.
  - vm_compute. reflexivity.
Qed.

Lemma GetValidToken_unexpired_no_network_call_witness :
  GetValidToken rt login (token_state (cred 3600000000000) true replies) =
    (Returned (TokenInfo_Token (cred 3600000000000), None),
     mkState (world0 None replies (tenants_json ["t1"], 200, None))
       (Some (cred 3600000000000), true)
       [ev_readToken (cred 3600000000000, None)]).
Proof.
  apply (GetValidToken_unexpired_no_network_call rt login
           (token_state (cred 3600000000000) true replies) (cred 3600000000000)).
  - reflexivity.
  - simpl. discriminate.
  - right. vm_compute. discriminate.
Defined.


(** An expired credential: one refresh, then the write, then the token. *)
Lemma GetValidToken_expired_refreshes_once_witness :
  let info := cred (-1000000000) in
  let s := token_state info true [(tok2, None)] in
  let new := {| TokenInfo_TenantID := "t1"; TokenInfo_Token := oauthToken_at now0 tok2 |} in
  (GetValidToken rt login s).1 = Returned (oauthToken_at now0 tok2, None) /\
  trace (GetValidToken rt login s).2 =
    [ev_readToken (info, None);
     ev_queryToken
       {[ "grant_type" := ["refresh_token"];
          "client_id" := ["04b07795-8ddb-461a-bbee-02f9e1bf7b46"];
          "scope" := ["offline_access https://management.azure.com/.default"];
          "refresh_token" := ["rt0"] ]}
       "t1" (Returned (tok2, None));
     ev_writeLoginInfo new None] /\
  (exists data,
     trace (GetValidToken rt login s).2 !! 1%nat =
       Some (ev_queryToken data "t1" (Returned (tok2, None))) /\
     data !! "grant_type" = Some ["refresh_token"] /\
     data !! "refresh_token" = Some ["rt0"] /\
     size data = 4%nat) /\
  files (GetValidToken rt login s).2 = (Some new, true).
Proof.
  intros info s new.
  destruct (GetValidToken_expired_refreshes_once rt login s (GetValidToken rt login s).2
              info (GetValidToken rt login s).1)
    as (data & r & evs & Hgrant & Hrefresh & _ & _ & Hsize & Hlog & Hquery & _ & Hok & _).
  - reflexivity.
  - vm_compute. reflexivity.
  - apply surjective_pairing.
  - assert (r = Returned (tok2, None)) as -> by (rewrite <- Hquery; reflexivity).
    pose proof (Hok tok2 eq_refl) as Hnew. cbv zeta in Hnew.
    destruct Hnew as [werr [Hevs [Hwrite Hout]]]. subst evs.
    assert (werr = None) as -> by (vm_compute in Hwrite; congruence).
    split_and!.
    + rewrite (Hout eq_refl). reflexivity.
    + vm_compute. reflexivity.
    + exists data. split_and!.
      * rewrite Hlog. reflexivity.
      * exact Hgrant.
      * exact Hrefresh.
      * exact Hsize.
    + vm_compute. reflexivity.
Defined.

(** The store cannot be written: the refreshed token is dropped. *)
Lemma GetValidToken_write_failure_returns_zero_token_witness :
  (GetValidToken rt login (token_state (cred (-1000000000)) false [(tok2, None)])).1 =
    Returned (oauth2.zero, Some (errors_New "permission denied")).
Proof.
  set (s := token_state (cred (-1000000000)) false [(tok2, None)]).
  apply (GetValidToken_write_failure_returns_zero_token rt login s
           (GetValidToken rt login s).2 (GetValidToken rt login s).1
           (trace (GetValidToken rt login s).2)
           (refreshToken_data "rt0") "t1" tok2
           {| TokenInfo_TenantID := "t1"; TokenInfo_Token := oauthToken_at now0 tok2 |}
           (errors_New "permission denied")).
  - apply surjective_pairing.
  - reflexivity.
  - vm_compute. repeat constructor.
  - vm_compute. repeat constructor.
Defined.


(** The tenants API answers 200 with an empty [value] array. *)
Lemma Login_empty_tenant_sequence_panics_witness :
  (Login rt login ctx (login_state qs_code (tenants_json [], 200, None))).1 =
    Panicked "runtime error: index out of range [0] with length 0".
Proof.
  set (s := login_state qs_code (tenants_json [], 200, None)).
  apply (proj1 (Login_empty_tenant_sequence_panics rt login ctx s
                  (Login rt login ctx s).2 (Login rt login ctx s).1
                  (trace (Login rt login ctx s).2)
                  authorizationURL "Bearer at1" (tenants_json []) {| Value := [] |}
                  (surjective_pairing _) eq_refl
                  ltac:(vm_compute; repeat constructor) eq_refl eq_refl)).
Defined.

(** The user denies access: the earlier credential stays in the store. *)
Lemma Login_failure_leaves_store_untouched_witness :
  let s := login_state qs_denied (tenants_json ["t1"], 200, None) in
  existsb is_write (trace (Login rt login ctx s).2) = false /\
  files (Login rt login ctx s).2 = old_cred /\
  exists err, (Login rt login ctx s).1 = Returned (Some err).
Proof.
  intros s.
  destruct (Login_failure_leaves_store_untouched rt login ctx s
              (Login rt login ctx s).2 (Login rt login ctx s).1
              (trace (Login rt login ctx s).2))
    as (Hfail & _ & _).
  - apply surjective_pairing.
  - reflexivity.
  - apply Hfail.
    exists (ev_select (Returned (recv_queryCh qs_denied))). split.
    + vm_compute. repeat constructor.
    + vm_compute. reflexivity.
Defined.

(** The login is cancelled while nothing has come back from the browser. *)
Lemma Login_cancelled_before_callback_witness :
  Login rt login ctx (start world_cancelled old_cred) =
    (Returned None,
     mkState world_cancelled old_cred
       [ev_startLoginServer (Returned (8080, None));
        ev_openAzureLoginPage "http://localhost:8080" (Returned tt);
        ev_select (Returned ctx_Done)]).
Proof.
  apply (Login_cancelled_before_callback rt login ctx (start world_cancelled old_cred)
           8080 world_cancelled world_cancelled world_cancelled);
    reflexivity.
Defined.

Lemma Login_callback_error_or_missing_code_witness :
  (Login rt login ctx (login_state qs_denied (tenants_json ["t1"], 200, None))).1 =
    Returned (Some (fmt_Errorf "login failed : %s" [fmt.strs ["access_denied"]])) /\
  fmt.Sprintf "login failed : %s" [fmt.strs ["access_denied"]] =
    "login failed : [access_denied]".
Proof.
  set (s := login_state qs_denied (tenants_json ["t1"], 200, None)).
  destruct (Login_callback_error_or_missing_code rt login ctx s
              (Login rt login ctx s).2 (Login rt login ctx s).1
              (trace (Login rt login ctx s).2) qs_denied)
    as (Herror & _).
  - apply surjective_pairing.
  - reflexivity.
  - vm_compute. repeat constructor.
  - destruct (Herror ["access_denied"] eq_refl) as (Hout & _ & Htext).
    split; [exact Hout | exact Htext].
Defined.

Lemma Login_error_key_precedes_code_witness :
  let s := login_state qs_both (tenants_json ["t1"], 200, None) in
  (Login rt login ctx s).1 =
    Returned (Some (fmt_Errorf "login failed : %s" [fmt.strs ["access_denied"]])) /\
  existsb is_network (trace (Login rt login ctx s).2) = false /\
  files (Login rt login ctx s).2 = old_cred.
Proof.
  intros s.
  apply (Login_error_key_precedes_code rt login ctx s
           (Login rt login ctx s).2 (Login rt login ctx s).1
           (trace (Login rt login ctx s).2) qs_both ["access_denied"] ["abc"]).
  - apply surjective_pairing.
  - reflexivity.
  - vm_compute. repeat constructor.
  - reflexivity.
  - reflexivity.
Defined.

(** An answer that lives 3599 seconds. *)
Lemma refreshToken_request_and_expiry_witness :
  let s := token_state (cred 0) true [(tok2, None)] in
  exists t,
    (refreshToken rt login "rt0" "t1" s).1 = Returned (t, None) /\
    oauth2.Expiry t = now0 + 3599 * 1000000000.
Proof.
  intros s.
  destruct (refreshToken_request_and_expiry rt login "rt0" "t1" s
              (refreshToken rt login "rt0" "t1" s).2
              (refreshToken rt login "rt0" "t1" s).1)
    as (data & r & Hquery & _ & _ & _ & _ & _ & _ & Hconv).
  - apply surjective_pairing.
  - assert (r = Returned (tok2, None)) as ->.
    { vm_compute in Hquery. injection Hquery as <-. reflexivity. }
    destruct (Hconv tok2 eq_refl) as (t & Hout & _ & _ & _ & _ & Hexact).
    exists t. split; [exact Hout | ].
    rewrite Hexact; [reflexivity | simpl; lia].
Defined.

(** An answer that lives 9223372037 seconds: the product with 10^9 does
    not fit an [int64], and the expiry computed is in the past, not
    [now + expires-in] as C7 has it. *)
Lemma refreshToken_long_lifetime_wraps :
  let s := token_state (cred 0) true [(tok_long, None)] in
  exists t,
    (refreshToken rt login "rt0" "t1" s).1 = Returned (t, None) /\
    oauth2.Expiry t <> time_Now rt (world s) + ExpiresIn tok_long * 1000000000 /\
    oauth2.Expiry t < time_Now rt (world s).
Proof.
  intros s. eexists. split_and!.
  - vm_compute. reflexivity.
  - vm_compute. discriminate.
  - vm_compute. reflexivity.
Qed.

(** No browser: the process exits, nothing else happens. *)
Lemma Login_browser_failure_is_fatal_witness :
  Login rt login ctx (start world_no_browser old_cred) =
    (Exited 1,
     mkState world_no_browser old_cred
       [ev_startLoginServer (Returned (8080, None));
        ev_openAzureLoginPage "http://localhost:8080" (Exited 1)]).
Proof.
  apply (Login_browser_failure_is_fatal rt store ctx (start world_no_browser old_cred)
           8080 "q8Zk2mXw0a" world_no_browser world_no_browser world_no_browser).
  - reflexivity.
  - reflexivity.
  - eapply launch_fails_linux; reflexivity.
Defined.

(** ** Further runs *)

(** A login that goes through: the credential of the first tenant is
    written and the success line is printed. *)
Lemma Login_succeeds :
  let s := login_state qs_code (tenants_json ["t1"; "t2"], 200, None) in
  let new := {| TokenInfo_TenantID := "t1"; TokenInfo_Token := oauthToken_at now0 tok2 |} in
  (Login rt login ctx s).1 = Returned None /\
  files (Login rt login ctx s).2 = (Some new, true) /\
  trace (Login rt login ctx s).2 =
    [ev_startLoginServer (Returned (8080, None));
     ev_openAzureLoginPage "http://localhost:8080" (Returned tt);
     ev_select (Returned (recv_queryCh qs_code));
     ev_queryToken (Login_data ["abc"] "http://localhost:8080") "organizations"
       (Returned (tok1, None));
     ev_queryAuthorizationAPI authorizationURL "Bearer at1"
       (Returned (tenants_json ["t1"; "t2"], 200, None));
     ev_queryToken (refreshToken_data "rt1") "t1" (Returned (tok2, None));
     ev_writeLoginInfo new None;
     ev_Println "Login Succeeded"].
Proof. simpl. split_and!; vm_compute; reflexivity. Qed.

(** A callback with neither [error] nor [code]. *)
Lemma Login_bare_callback :
  (Login rt login ctx (login_state qs_bare (tenants_json ["t1"], 200, None))).1 =
    Returned (Some ErrLoginFailed).
Proof. vm_compute. reflexivity. Qed.

(** The tenants API answers 403: the body ends up in the error. *)
Lemma Login_discovery_forbidden :
  (Login rt login ctx (login_state qs_code ("Forbidden", 403, None))).1 =
    Returned (Some (fmt_Errorf "login failed : Forbidden" [])).
Proof. vm_compute. reflexivity. Qed.

(** The provider rejects the refresh: the hint, and the old record stays. *)
Lemma GetValidToken_refresh_rejected :
  let s := token_state (cred (-1000000000)) true [rejected] in
  (GetValidToken rt login s).1 =
    Returned (oauth2.zero,
      Some (errors_Wrap (errors_New "invalid_grant")
        "access token request failed. Maybe you need to login to azure again.")) /\
  files (GetValidToken rt login s).2 = files s.
Proof. simpl. split; vm_compute; reflexivity. Qed.

(** A callback already in the channel is handled although the login was
    cancelled, when [select] picks it. *)
Lemma select_takes_callback_after_cancel (w : outside) (qsValues : Values) :
  cancelled w = true -> chan w = Some qsValues ->
  select
    {| GOOS := GOOS rt; exec_Start := exec_Start rt; time_Now := time_Now rt;
       startLoginServer := startLoginServer rt; queryCh := queryCh rt;
       queryCh_take := queryCh_take rt; park := park rt; pick := fun _ => false;
       json_Unmarshal := json_Unmarshal rt; randomString := randomString rt;
       http_queryToken := http_queryToken rt;
       http_queryAuthorizationAPI := http_queryAuthorizationAPI rt |} ctx w =
    (Returned (recv_queryCh qsValues), set_chan None w).
Proof.
  intros Hdone Hfull.
  rewrite (select_both_ready _ ctx w qsValues); [reflexivity | exact Hdone | exact Hfull].
Qed.

End Runs.


(** * Further properties of the code *)

(** Finds an event in an explicit log. *)
Ltac log_find :=
  solve [repeat first [apply list_elem_of_here | apply list_elem_of_further]].

(** A format without verbs is printed as it is. *)
Lemma Sprintf_plain (format : string) (a : list fmt.operand) :
  plain format = true -> fmt.Sprintf format a = format.
Proof.
  induction format as [|c rest IH]; intros Hplain; [reflexivity | ].
  simpl in Hplain. apply andb_true_iff in Hplain as [Hc Hrest].
  specialize (IH Hrest).
  destruct c as [[] [] [] [] [] [] [] []]; try discriminate Hc;
    simpl; rewrite ?IH; try reflexivity;
    destruct rest as [|[[] [] [] [] [] [] [] []] rest']; simpl in *; congruence.
Qed.

Section Login_more.
Context {W S : Type}.
Variable rt : runtime W.
Variable login : AzureLoginService W S.

(** X1: in every run, [Login] returns [nil] exactly when the [select] took
    the cancellation or the credential was written without error. *)
Theorem Login_returns_nil_iff (ctx : Context W) (s s' : state W S)
    (out : outcome (option error)) (evs : list event) :
  Login rt login ctx s = (out, s') ->
  trace s' = trace s ++ evs ->
  (out = Returned None <->
   ev_select (Returned ctx_Done) ∈ evs \/ exists info, ev_writeLoginInfo info None ∈ evs).
Proof.
  intros Hrun Hlog.
  run_cases Hrun; injection Hrun as <- <-; log_norm; subst evs.
  all: split;
    [ intros Hnil; try discriminate Hnil
    | intros [Hin | [info Hin]]; log_mem Hin; simplify_eq; try reflexivity ].
  - left. log_find.
  - right. eexists. log_find.
Qed.

(** X2: the line "Login Succeeded" is the only line [Login] prints; it is
    printed exactly when the credential was written without error, as the
    last action of a run that returns [nil]. *)
Theorem Login_success_line (ctx : Context W) (s s' : state W S)
    (out : outcome (option error)) (evs : list event) :
  Login rt login ctx s = (out, s') ->
  trace s' = trace s ++ evs ->
  ((exists line, ev_Println line ∈ evs) <-> exists info, ev_writeLoginInfo info None ∈ evs) /\
  (forall line, ev_Println line ∈ evs ->
     line = "Login Succeeded" /\ last evs = Some (ev_Println line) /\ out = Returned None).
Proof.
  intros Hrun Hlog.
  run_cases Hrun; injection Hrun as <- <-; log_norm; subst evs.
  all: split;
    [ split;
      [ intros [line Hin]; log_mem Hin; simplify_eq
      | intros [info Hin]; log_mem Hin; simplify_eq ]
    | intros line Hin; log_mem Hin; simplify_eq ].
  - eexists. log_find.
  - eexists. log_find.
  - split_and!; reflexivity.
Qed.

(** X3: nothing is tried twice.  Every run of [Login] starts the listener
    once, opens the login page at most once, waits at most once, makes at
    most two token requests and one tenant discovery, writes the store at
    most once and never reads it. *)
Theorem Login_call_bounds (ctx : Context W) (s s' : state W S)
    (out : outcome (option error)) (evs : list event) :
  Login rt login ctx s = (out, s') ->
  trace s' = trace s ++ evs ->
  (count is_start evs = 1 /\ count is_open evs <= 1 /\ count is_select evs <= 1 /\
   count is_token_request evs <= 2 /\ count is_discovery evs <= 1 /\
   count is_write evs <= 1 /\ count is_read evs = 0)%nat.
Proof.
  intros Hrun Hlog.
  run_cases Hrun; injection Hrun as <- <-; log_norm; subst evs.
  all: unfold count; simpl; lia.
Qed.

(** X4: the code exchange.  A token request with the grant
    authorization_code is the fourth call of the run, after a callback
    without [error] key; it goes to the tenant "organizations" and carries
    the values of the callback's [code] key, the client id, the fixed scope,
    and as [redirect_uri] the very URL the login page was opened with,
    http://localhost: followed by the port of the listener. *)
Theorem Login_code_exchange_request (ctx : Context W) (s s' : state W S)
    (out : outcome (option error)) (evs : list event)
    (data : Values) (tenantID : string) (r : outcome (azureToken * option error)) :
  Login rt login ctx s = (out, s') ->
  trace s' = trace s ++ evs ->
  ev_queryToken data tenantID r ∈ evs ->
  data !! "grant_type" = Some ["authorization_code"] ->
  exists serverPort qsValues code rest,
    evs = ev_startLoginServer (Returned (serverPort, None))
          :: ev_openAzureLoginPage ("http://localhost:" +:+ Itoa serverPort) (Returned tt)
          :: ev_select (Returned (recv_queryCh qsValues))
          :: ev_queryToken data tenantID r :: rest /\
    tenantID = "organizations" /\
    qsValues !! "error" = None /\
    qsValues !! "code" = Some code /\
    data !! "code" = Some code /\
    data !! "redirect_uri" = Some ["http://localhost:" +:+ Itoa serverPort] /\
    data !! "client_id" = Some [clientID] /\
    data !! "scope" = Some [scopes] /\
    size data = 5%nat.
Proof.
  intros Hrun Hlog Hin Hgrant.
  run_cases Hrun; injection Hrun as <- <-; log_norm; subst evs; log_mem Hin.
  all: simplify_eq.
  all: try (vm_compute in Hgrant; discriminate Hgrant).
  all: repeat match goal with u : unit |- _ => destruct u end.
  all: match goal with
       | Hstart : startLoginServer _ _ = (Returned (?port, None), _),
         Hsel : select _ _ _ = (Returned (recv_queryCh ?qs), _),
         Hcode : ?qs !! "code" = Some ?code |- _ =>
           exists port, qs, code
       end.
  all: eexists; split_and!; [reflexivity | reflexivity | assumption | assumption
                             | reflexivity .. ].
Qed.

(** X5: the tenant discovery.  It is made only after a code exchange that
    returned a token without error, goes to the fixed tenants URL, and its
    authorization header is "Bearer " followed by that token's access
    token. *)
Theorem Login_discovery_request (ctx : Context W) (s s' : state W S)
    (out : outcome (option error)) (evs : list event)
    (url header : string) (r : outcome (string * Z * option error)) :
  Login rt login ctx s = (out, s') ->
  trace s' = trace s ++ evs ->
  ev_queryAuthorizationAPI url header r ∈ evs ->
  url = authorizationURL /\
  exists data token,
    ev_queryToken data "organizations" (Returned (token, None)) ∈ evs /\
    header = "Bearer " +:+ AccessToken token.
Proof.
  intros Hrun Hlog Hin.
  run_cases Hrun; injection Hrun as <- <-; log_norm; subst evs; log_mem Hin.
  all: simplify_eq.
  all: split; [reflexivity | ].
  all: eexists _, _; split; [log_find | exact (Sprintf_Bearer _)].
Qed.

(** X6: the tenant-scoped refresh.  A token request with the grant
    refresh_token is made only after a discovery that answered 200 with a
    body that decodes to a non-empty tenant list; it goes to the first
    tenant of that list, whatever follows it, and carries the refresh token
    the code exchange returned, with the fixed scope and the client id, in
    a form of four fields. *)
Theorem Login_refresh_request (ctx : Context W) (s s' : state W S)
    (out : outcome (option error)) (evs : list event)
    (data : Values) (tenantID : string) (r : outcome (azureToken * option error)) :
  Login rt login ctx s = (out, s') ->
  trace s' = trace s ++ evs ->
  ev_queryToken data tenantID r ∈ evs ->
  data !! "grant_type" = Some ["refresh_token"] ->
  exists exchange token url header bits tenants v0 rest,
    ev_queryToken exchange "organizations" (Returned (token, None)) ∈ evs /\
    ev_queryAuthorizationAPI url header (Returned (bits, 200, None)) ∈ evs /\
    json_Unmarshal rt bits = (tenants, None) /\
    Value tenants = v0 :: rest /\
    tenantID = TenantID v0 /\
    data = refreshToken_data (RefreshToken token) /\
    data !! "refresh_token" = Some [RefreshToken token] /\
    data !! "scope" = Some [scopes] /\
    data !! "client_id" = Some [clientID] /\
    size data = 4%nat.
Proof.
  intros Hrun Hlog Hin Hgrant.
  run_cases Hrun; injection Hrun as <- <-; log_norm; subst evs; log_mem Hin.
  all: simplify_eq.
  all: try (vm_compute in Hgrant; discriminate Hgrant).
  all: repeat match goal with
              | H : bool_decide (_ = 200) = true |- _ =>
                  apply bool_decide_eq_true in H; subst
              end.
  all: match goal with
       | Hjson : json_Unmarshal _ ?bits = (?t, None),
         Hfirst : Value ?t = ?v0 :: ?rest |- _ =>
           eexists _, _, _, _, bits, t, v0, rest
       end.
  all: split_and!;
    [log_find | log_find | assumption | assumption | reflexivity | reflexivity
    | apply refreshToken_data_form ..].
Qed.

(** X7: the errors [Login] returns.  An error returned by [Login] is the
    error of the listener as it came, or the error of the code exchange
    wrapped with "Access token request failed", or an error labelled
    "login failed". *)
Theorem Login_error_labels (ctx : Context W) (s s' : state W S)
    (out : outcome (option error)) (evs : list event) (err : error) :
  Login rt login ctx s = (out, s') ->
  trace s' = trace s ++ evs ->
  out = Returned (Some err) ->
  (exists serverPort, evs = [ev_startLoginServer (Returned (serverPort, Some err))]) \/
  (exists data token e,
     ev_queryToken data "organizations" (Returned (token, Some e)) ∈ evs /\
     err = errors_Wrap e "Access token request failed") \/
  LoginFailed err = true.
Proof.
  intros Hrun Hlog Hout.
  run_cases Hrun; injection Hrun as <- <-; log_norm; subst evs.
  all: try discriminate Hout.
  all: injection Hout as <-.
  all: first
         [ right; right; reflexivity
         | left; eexists; reflexivity
         | right; left; eexists _, _, _; split; [log_find | reflexivity] ].
Qed.

(** X8: [Login] has no timeout of its own.  When the listener is up, the
    page is opened, and then neither the cancellation nor a callback is
    there and nothing ever wakes the waiting goroutine, [Login] does not
    return; the store is as it was. *)
Theorem Login_blocks_without_callback (ctx : Context W) (s : state W S)
    (serverPort : Z) (w1 w2 : W) :
  let redirectURL := "http://localhost:" +:+ Itoa serverPort in
  startLoginServer rt (world s) = (Returned (serverPort, None), w1) ->
  openAzureLoginPage (svc_apiHelper login) redirectURL w1 = (Returned tt, w2) ->
  ctx w2 = false ->
  queryCh rt w2 = None ->
  park rt w2 = None ->
  Login rt login ctx s =
    (Blocked,
     mkState w2 (files s)
       (trace s ++ [ev_startLoginServer (Returned (serverPort, None));
                    ev_openAzureLoginPage redirectURL (Returned tt);
                    ev_select Blocked])).
Proof.
  intros redirectURL Hstart Hopen Hdone Hempty Hpark.
  unfold Login, call, mbind, M_bind, mret, M_ret. simpl.
  rewrite Hstart. simpl. fold redirectURL. rewrite Hopen. simpl.
  rewrite (select_blocked rt ctx w2 Hdone Hempty Hpark). simpl.
  rewrite <- !app_assoc. reflexivity.
Qed.

(** X9: a discovery that answers another status than 200 without a
    transport error makes [Login] return the error whose format is
    "login failed : " followed by the body, with no operands; the body is
    not decoded.  When the body has no [%] the text of the error is exactly
    that format. *)
Theorem Login_discovery_status_error (ctx : Context W) (s s' : state W S)
    (out : outcome (option error)) (evs : list event)
    (url header bits : string) (statusCode : Z) :
  Login rt login ctx s = (out, s') ->
  trace s' = trace s ++ evs ->
  ev_queryAuthorizationAPI url header (Returned (bits, statusCode, None)) ∈ evs ->
  statusCode <> 200 ->
  out = Returned (Some (fmt_Errorf ("login failed : " +:+ bits) [])) /\
  last evs = Some (ev_queryAuthorizationAPI url header (Returned (bits, statusCode, None))) /\
  (plain bits = true ->
   fmt.Sprintf ("login failed : " +:+ bits) [] = "login failed : " +:+ bits).
Proof.
  intros Hrun Hlog Hin Hstatus.
  run_cases Hrun; injection Hrun as <- <-; log_norm; subst evs; log_mem Hin.
  all: simplify_eq.
  all: try match goal with
           | H : bool_decide (_ = 200) = true |- _ =>
               apply bool_decide_eq_true in H; congruence
           end.
  split_and!; [reflexivity | reflexivity | ].
  intros Hplain.
  match goal with
  | H : plain ?bits = true |- _ =>
      exact (Sprintf_plain ("login failed : " +:+ bits) [] H)
  end.
Qed.

End Login_more.

Section GetValidToken_more.
Context {W S : Type}.
Variable rt : runtime W.
Variable login : AzureLoginService W S.

(** X10: when the store cannot be read, [GetValidToken] returns the zero
    token and the error of the read as it came (not wrapped); the read is
    its only call, so there is no request and no write. *)
Theorem GetValidToken_read_error (s : state W S) (info : TokenInfo) (e : error) :
  readToken (svc_tokenStore login) (files s) = (info, Some e) ->
  GetValidToken rt login s =
    (Returned (oauth2.zero, Some e),
     mkState (world s) (files s) (trace s ++ [ev_readToken (info, Some e)])).
Proof.
  intros Hread.
  unfold GetValidToken, do_readToken, mbind, M_bind, mret, M_ret. simpl.
  rewrite Hread. reflexivity.
Qed.

(** X11: every run of [GetValidToken] reads the store once, makes at most
    one request, which is a token request, and writes at most once; it
    never starts a listener, opens a page, waits or discovers tenants.  A
    write keeps the tenant of the record that was read, and without a write
    the store is as it was. *)
Theorem GetValidToken_call_bounds (s s' : state W S)
    (out : outcome (oauth2.Token * option error)) (evs : list event) :
  GetValidToken rt login s = (out, s') ->
  trace s' = trace s ++ evs ->
  (count is_read evs = 1 /\ count is_token_request evs <= 1 /\ count is_write evs <= 1 /\
   count is_discovery evs = 0 /\ count is_start evs = 0 /\ count is_open evs = 0 /\
   count is_select evs = 0)%nat /\
  (forall info r, ev_writeLoginInfo info r ∈ evs ->
     exists old, ev_readToken (old, None) ∈ evs /\
                 TokenInfo_TenantID info = TokenInfo_TenantID old) /\
  (count is_write evs = 0%nat -> files s' = files s).
Proof.
  intros Hrun Hlog.
  run_cases Hrun; injection Hrun as <- <-; log_norm; subst evs.
  all: split_and!; try (unfold count; simpl; lia).
  all: try (intros info r Hin; log_mem Hin; simplify_eq;
            eexists; (split; [log_find | reflexivity])).
  all: try (intros Hnone; first [reflexivity | discriminate Hnone]).
Qed.

(** X12: a token obtained from [GetValidToken] is served from the store
    afterwards.  With a store that reads back what was last written, a call
    of [GetValidToken] that follows a successful one while the token is
    still valid returns the same token, after a read and nothing else. *)
Theorem GetValidToken_twice (s s1 : state W S) (t : oauth2.Token) :
  (forall info f f', writeLoginInfo (svc_tokenStore login) info f = (None, f') ->
                     readToken (svc_tokenStore login) f' = (info, None)) ->
  GetValidToken rt login s = (Returned (t, None), s1) ->
  oauth2.Valid t (time_Now rt (world s1)) = true ->
  exists info,
    TokenInfo_Token info = t /\
    GetValidToken rt login s1 =
      (Returned (t, None),
       mkState (world s1) (files s1) (trace s1 ++ [ev_readToken (info, None)])).
Proof.
  intros Hstore Hrun Hvalid.
  run_cases Hrun; simplify_eq; simpl in Hvalid.
  - match goal with
    | Hread : readToken _ _ = (?old, None) |- context [GetValidToken rt login ?st] =>
        exists old; split; [reflexivity | ];
        exact (GetValidToken_valid rt login st old Hread Hvalid)
    end.
  - match goal with
    | Hwrite : writeLoginInfo _ ?new _ = (None, _) |- context [GetValidToken rt login ?st] =>
        exists new; split; [reflexivity | ];
        exact (GetValidToken_valid rt login st new (Hstore _ _ _ Hwrite) Hvalid)
    end.
Qed.

(** X13: [GetValidToken] may hand out a token that it would itself not
    accept.  When the refresh answers with a lifetime below ten seconds,
    the token returned, if its expiry is not the zero time, is not valid at
    the moment of the return. *)
Theorem GetValidToken_short_lived_answer (s s' : state W S) (t : oauth2.Token)
    (evs : list event) (data : Values) (tenantID : string) (token : azureToken) :
  GetValidToken rt login s = (Returned (t, None), s') ->
  trace s' = trace s ++ evs ->
  ev_queryToken data tenantID (Returned (token, None)) ∈ evs ->
  -9223372036 <= ExpiresIn token < 10 ->
  oauth2.Expiry t <> 0 ->
  oauth2.Valid t (time_Now rt (world s')) = false.
Proof.
  intros Hrun Hlog Hin Hrange Hnonzero.
  run_cases Hrun; simplify_eq; log_norm; subst evs; log_mem Hin.
  simplify_eq. simpl in *.
  apply not_true_is_false. intros Hvalid.
  apply Valid_spec in Hvalid as [_ [Hzero | Hlate]]; simpl in *.
  - exact (Hnonzero Hzero).
  - unfold time.Add in Hlate. rewrite seconds_exact in Hlate by lia. lia.
Qed.

End GetValidToken_more.

Section Conversion_more.
Context {W S : Type}.
Variable rt : runtime W.

(** X14: the token [toOAuthToken] builds from an answer whose lifetime fits
    a duration is valid at the moment of the conversion exactly when the
    answer has an access token and a lifetime of ten seconds or more (the
    zero time as expiry set aside). *)
Theorem toOAuthToken_valid_iff (token : azureToken) (s s1 : state W S) (t : oauth2.Token) :
  toOAuthToken rt token s = (Returned t, s1) ->
  -9223372036 <= ExpiresIn token <= 9223372036 ->
  oauth2.Expiry t <> 0 ->
  (oauth2.Valid t (time_Now rt (world s1)) = true <->
   AccessToken token <> EmptyString /\ 10 <= ExpiresIn token).
Proof.
  intros Hrun Hrange Hnonzero.
  rewrite toOAuthToken_run in Hrun. injection Hrun as <- <-.
  rewrite Valid_spec. simpl in *. unfold time.Add in *.
  rewrite seconds_exact in * by exact Hrange.
  split.
  - intros [Haccess [Hzero | Hlate]]; [contradiction | split; [exact Haccess | lia]].
  - intros [Haccess Hlife]. split; [exact Haccess | right; lia].
Qed.

(** X15: a lifetime from 9223372037 to 18446744073 seconds wraps around
    once: the expiry [toOAuthToken] computes is 2^64 nanoseconds short of
    now + expires-in, and lies before the moment of the conversion. *)
Theorem toOAuthToken_wrap_window (token : azureToken) (s s1 : state W S) (t : oauth2.Token) :
  toOAuthToken rt token s = (Returned t, s1) ->
  9223372037 <= ExpiresIn token <= 18446744073 ->
  oauth2.Expiry t = time_Now rt (world s) + ExpiresIn token * 1000000000 - 2 ^ 64 /\
  oauth2.Expiry t < time_Now rt (world s).
Proof.
  intros Hrun Hrange.
  rewrite toOAuthToken_run in Hrun. injection Hrun as <- <-.
  simpl. unfold time.Add, time.mul, time.int64, time.Second.
  assert ((ExpiresIn token * 1000000000 + 2 ^ 63) `mod` 2 ^ 64 =
          ExpiresIn token * 1000000000 + 2 ^ 63 - 2 ^ 64) as ->.
  { symmetry. apply (Z.mod_unique _ _ 1); lia. }
  lia.
Qed.

(** X16: [openbrowser] either returns or ends the process with status 1,
    and it ends the process exactly when the browser cannot be launched:
    the command of the platform failed to start, or the platform is not one
    of linux, windows and darwin (and then nothing was started). *)
Theorem openbrowser_exits_iff (url : string) (w w' : W) (o : outcome unit) :
  openbrowser rt url w = (o, w') ->
  (o = Returned tt \/ o = Exited 1) /\
  (o = Exited 1 <-> launch_fails rt url w w').
Proof.
  intros Hrun.
  assert (o = Returned tt \/ (o = Exited 1 /\ launch_fails rt url w w')) as Hcases.
  { unfold openbrowser, log_Fatal in Hrun.
    destruct (String.eqb (GOOS rt) "linux") eqn:Hl.
    { apply String.eqb_eq in Hl.
      destruct (exec_Start rt "xdg-open" [url] w) as [[e|] w0] eqn:Hs; simplify_eq;
        [right; split; [reflexivity | eapply launch_fails_linux; eassumption]
        | left; reflexivity]. }
    destruct (String.eqb (GOOS rt) "windows") eqn:Hw.
    { apply String.eqb_eq in Hw.
      destruct (exec_Start rt "rundll32" ["url.dll,FileProtocolHandler"; url] w)
        as [[e|] w0] eqn:Hs; simplify_eq;
        [right; split; [reflexivity | eapply launch_fails_windows; eassumption]
        | left; reflexivity]. }
    destruct (String.eqb (GOOS rt) "darwin") eqn:Hd.
    { apply String.eqb_eq in Hd.
      destruct (exec_Start rt "open" [url] w) as [[e|] w0] eqn:Hs; simplify_eq;
        [right; split; [reflexivity | eapply launch_fails_darwin; eassumption]
        | left; reflexivity]. }
    simplify_eq. right. split; [reflexivity | ].
    apply launch_fails_unsupported; apply String.eqb_neq; assumption. }
  split; [ | split].
  - destruct Hcases as [-> | [-> _]]; auto.
  - intros ->. destruct Hcases as [Hreturned | [_ Hfail]]; [discriminate | exact Hfail].
  - intros Hfail. apply openbrowser_fatal in Hfail.
    rewrite Hfail in Hrun. injection Hrun as <-. reflexivity.
Qed.

End Conversion_more.

Section Constructors_more.
Context {W S : Type}.
Variable rt : runtime W.
Variable pkg : package W S.

(** The path of the store: the fixed file name in the directory of the
    Azure CLI's token file, whatever error the lookup of that file
    reported. *)
Lemma getTokenStorePath_run (s : state W S) (cliPath : string) (ignored : option error) :
  cli_AccessTokensPath pkg (world s) = (cliPath, ignored) ->
  getTokenStorePath pkg s =
    (Returned (filepath_Join pkg [filepath_Dir pkg cliPath; "dockerAccessToken.json"]), s).
Proof. intros Hcli. unfold getTokenStorePath. rewrite Hcli. reflexivity. Qed.

Lemma NewAzureLoginService_run (s : state W S) (cliPath : string) (ignored : option error) :
  cli_AccessTokensPath pkg (world s) = (cliPath, ignored) ->
  NewAzureLoginService rt pkg s =
    newAzureLoginServiceFromPath pkg
      (filepath_Join pkg [filepath_Dir pkg cliPath; "dockerAccessToken.json"])
      (azureAPIHelper rt) s.
Proof.
  intros Hcli. unfold NewAzureLoginService, mbind, M_bind.
  rewrite (getTokenStorePath_run s cliPath ignored Hcli). reflexivity.
Qed.

(** X17: when the token store cannot be set up, [NewAuthorizerFromLogin]
    returns no authorizer and the error of [newTokenStore] as it came.  The
    store is looked for under the fixed name in the directory of the Azure
    CLI's token file, an error of that lookup being ignored; the store is
    not read and no request is made. *)
Theorem NewAuthorizerFromLogin_store_error (s : state W S) (cliPath : string)
    (ignored : option error) (store : tokenStore S) (e : error) (f : S) :
  cli_AccessTokensPath pkg (world s) = (cliPath, ignored) ->
  newTokenStore pkg (filepath_Join pkg [filepath_Dir pkg cliPath; "dockerAccessToken.json"])
    (files s) = ((store, Some e), f) ->
  NewAuthorizerFromLogin rt pkg s =
    (Returned (None, Some e), mkState (world s) f (trace s)).
Proof.
  intros Hcli Hnew.
  unfold NewAuthorizerFromLogin, mbind at 1, M_bind at 1.
  rewrite (NewAzureLoginService_run s cliPath ignored Hcli).
  unfold newAzureLoginServiceFromPath. rewrite Hnew. reflexivity.
Qed.

(** X18: an error of [GetValidToken] (no stored credential, a refused
    refresh, a failed write) comes out of [NewAuthorizerFromLogin] as it is,
    with no authorizer, and nothing is done after it. *)
Theorem NewAuthorizerFromLogin_token_error (s s2 : state W S) (cliPath : string)
    (ignored : option error) (store : tokenStore S) (f : S)
    (t : oauth2.Token) (e : error) :
  cli_AccessTokensPath pkg (world s) = (cliPath, ignored) ->
  newTokenStore pkg (filepath_Join pkg [filepath_Dir pkg cliPath; "dockerAccessToken.json"])
    (files s) = ((store, None), f) ->
  GetValidToken rt {| svc_tokenStore := store; svc_apiHelper := azureAPIHelper rt |}
    (mkState (world s) f (trace s)) = (Returned (t, Some e), s2) ->
  NewAuthorizerFromLogin rt pkg s = (Returned (None, Some e), s2).
Proof.
  intros Hcli Hnew Htoken.
  unfold NewAuthorizerFromLogin, mbind at 1, M_bind at 1.
  rewrite (NewAzureLoginService_run s cliPath ignored Hcli).
  unfold newAzureLoginServiceFromPath. rewrite Hnew.
  unfold mbind, M_bind. rewrite Htoken. reflexivity.
Qed.

(** X19: whenever [NewAuthorizerFromLogin] returns, exactly one of the
    authorizer and the error is nil, and the token inside an authorizer has
    an empty refresh token, an empty resource and no not-before: the refresh
    token stays in the store. *)
Theorem NewAuthorizerFromLogin_result (s s' : state W S)
    (authorizer : option adal.Token) (err : option error) :
  NewAuthorizerFromLogin rt pkg s = (Returned (authorizer, err), s') ->
  (authorizer = None <-> err <> None) /\
  (forall token, authorizer = Some token ->
     adal.RefreshToken token = EmptyString /\
     adal.Resource token = EmptyString /\
     adal.NotBefore token = EmptyString).
Proof.
  intros Hrun.
  unfold NewAuthorizerFromLogin, NewAzureLoginService, getTokenStorePath,
    newAzureLoginServiceFromPath, Now, mbind, M_bind, mret, M_ret in Hrun.
  destruct (cli_AccessTokensPath pkg (world s)) as [cliPath ignored].
  destruct (newTokenStore pkg _ (files s)) as [[store [e|]] f]; simpl in Hrun.
  - injection Hrun as <- <- <-. split; [split; [discriminate | reflexivity] | discriminate].
  - destruct (GetValidToken rt _ _) as [[[t [e|]]| | |] s2]; simplify_eq.
    + split; [split; [discriminate | reflexivity] | discriminate].
    + split; [split; [discriminate | intros H; exfalso; apply H; reflexivity] | ].
      intros token [= <-]. split_and!; reflexivity.
Qed.

(** X20: with a store that can be set up and holds a credential that
    [Token.Valid] accepts, [NewAuthorizerFromLogin] returns the authorizer
    for that access token and token type, with the whole seconds until the
    expiry and from the Unix epoch to the expiry in decimal; the read of the
    store is the only call, no request is made and the refresh token is not
    copied. *)
Theorem NewAuthorizerFromLogin_valid_credential (s : state W S) (cliPath : string)
    (ignored : option error) (store : tokenStore S) (f : S) (info : TokenInfo) :
  cli_AccessTokensPath pkg (world s) = (cliPath, ignored) ->
  newTokenStore pkg (filepath_Join pkg [filepath_Dir pkg cliPath; "dockerAccessToken.json"])
    (files s) = ((store, None), f) ->
  readToken store f = (info, None) ->
  oauth2.Valid (TokenInfo_Token info) (time_Now rt (world s)) = true ->
  let t := TokenInfo_Token info in
  NewAuthorizerFromLogin rt pkg s =
    (Returned
       (Some {| adal.AccessToken := oauth2.AccessToken t;
                adal.Type_ := oauth2.TokenType t;
                adal.ExpiresIn :=
                  Itoa (time.int (time.Seconds
                          (time.Sub (oauth2.Expiry t) (time_Now rt (world s)))));
                adal.ExpiresOn :=
                  Itoa (time.int (time.Seconds (time.Sub (oauth2.Expiry t) date.UnixEpoch)));
                adal.RefreshToken := EmptyString;
                adal.Resource := EmptyString;
                adal.NotBefore := EmptyString |},
        None),
     mkState (world s) f (trace s ++ [ev_readToken (info, None)])).
Proof.
  intros Hcli Hnew Hread Hvalid t.
  unfold NewAuthorizerFromLogin, mbind at 1, M_bind at 1.
  rewrite (NewAzureLoginService_run s cliPath ignored Hcli).
  unfold newAzureLoginServiceFromPath. rewrite Hnew.
  unfold mbind at 1, M_bind at 1.
  rewrite (GetValidToken_valid rt
             {| svc_tokenStore := store; svc_apiHelper := azureAPIHelper rt |}
             (mkState (world s) f (trace s)) info Hread Hvalid).
  reflexivity.
Qed.

End Constructors_more.

(** * The further properties on concrete runs *)

Module MoreRuns.
Import Script.
Import Host.

Lemma Login_returns_nil_iff_witness :
  (Login rt login ctx login_ok).1 = Returned None.
Proof.
  apply (Login_returns_nil_iff rt login ctx login_ok (Login rt login ctx login_ok).2
           (Login rt login ctx login_ok).1 (trace (Login rt login ctx login_ok).2)).
  - apply surjective_pairing.
  - reflexivity.
  - right. exists cred2. vm_compute. log_find.
Defined.

Lemma Login_success_line_witness :
  exists line, ev_Println line ∈ trace (Login rt login ctx login_ok).2.
Proof.
  apply (Login_success_line rt login ctx login_ok (Login rt login ctx login_ok).2
           (Login rt login ctx login_ok).1 (trace (Login rt login ctx login_ok).2)).
  - apply surjective_pairing.
  - reflexivity.
  - exists cred2. vm_compute. log_find.
Defined.

Lemma Login_call_bounds_witness :
  (count is_token_request (trace (Login rt login ctx login_ok).2) <= 2 /\
   count is_read (trace (Login rt login ctx login_ok).2) = 0)%nat.
Proof.
  destruct (Login_call_bounds rt login ctx login_ok (Login rt login ctx login_ok).2
              (Login rt login ctx login_ok).1 (trace (Login rt login ctx login_ok).2))
    as (_ & _ & _ & Hrequests & _ & _ & Hreads).
  - apply surjective_pairing.
  - reflexivity.
  - split; assumption.
Defined.

Lemma Login_code_exchange_request_witness :
  exists serverPort,
    Login_data ["abc"] "http://localhost:8080" !! "redirect_uri" =
      Some ["http://localhost:" +:+ Itoa serverPort].
Proof.
  destruct (Login_code_exchange_request rt login ctx login_ok
              (Login rt login ctx login_ok).2 (Login rt login ctx login_ok).1
              (trace (Login rt login ctx login_ok).2)
              (Login_data ["abc"] "http://localhost:8080") "organizations"
              (Returned (tok1, None)))
    as (serverPort & _ & _ & _ & _ & _ & _ & _ & _ & Hredirect & _).
  - apply surjective_pairing.
  - reflexivity.
  - vm_compute. log_find.
  - reflexivity.
  - exists serverPort. exact Hredirect.
Defined.

Lemma Login_discovery_request_witness :
  exists data token,
    ev_queryToken data "organizations" (Returned (token, None))
      ∈ trace (Login rt login ctx login_ok).2 /\
    "Bearer at1" = "Bearer " +:+ AccessToken token.
Proof.
  apply (Login_discovery_request rt login ctx login_ok
           (Login rt login ctx login_ok).2 (Login rt login ctx login_ok).1
           (trace (Login rt login ctx login_ok).2)
           authorizationURL "Bearer at1"
           (Returned (tenants_json ["t1"; "t2"], 200, None))).
  - apply surjective_pairing.
  - reflexivity.
  - vm_compute. log_find.
Defined.

Lemma Login_refresh_request_witness :
  exists v0 rest,
    Value (json_Unmarshal rt (tenants_json ["t1"; "t2"])).1 = v0 :: rest /\
    "t1" = TenantID v0.
Proof.
  destruct (Login_refresh_request rt login ctx login_ok
              (Login rt login ctx login_ok).2 (Login rt login ctx login_ok).1
              (trace (Login rt login ctx login_ok).2)
              (refreshToken_data "rt1") "t1" (Returned (tok2, None)))
    as (exchange & token & url & header & bits & tenants & v0 & rest
        & _ & Hdiscovery & Hjson & Hfirst & Htenant & _).
  - apply surjective_pairing.
  - reflexivity.
  - vm_compute. log_find.
  - reflexivity.
  - assert (bits = tenants_json ["t1"; "t2"]) as ->.
    { vm_compute in Hdiscovery. log_mem Hdiscovery.
      injection Hdiscovery as _ _ ->. reflexivity. }
    exists v0, rest. rewrite Hjson. split; assumption.
Defined.

Lemma Login_error_labels_witness :
  (exists data token e,
     ev_queryToken data "organizations" (Returned (token, Some e))
       ∈ trace (Login rt login ctx login_rejected).2 /\
     errors_Wrap (errors_New "invalid_grant") "Access token request failed" =
       errors_Wrap e "Access token request failed") \/
  LoginFailed (errors_Wrap (errors_New "invalid_grant") "Access token request failed") = true.
Proof.
  destruct (Login_error_labels rt login ctx login_rejected
              (Login rt login ctx login_rejected).2 (Login rt login ctx login_rejected).1
              (trace (Login rt login ctx login_rejected).2)
              (errors_Wrap (errors_New "invalid_grant") "Access token request failed"))
    as [[serverPort Hlistener] | Hrest].
  - apply surjective_pairing.
  - reflexivity.
  - reflexivity.
  - vm_compute in Hlistener. discriminate Hlistener.
  - exact Hrest.
Defined.

Lemma Login_blocks_without_callback_witness :
  Login rt login ctx (start world_silent old_cred) =
    (Blocked,
     mkState world_silent old_cred
       [ev_startLoginServer (Returned (8080, None));
        ev_openAzureLoginPage "http://localhost:8080" (Returned tt);
        ev_select Blocked]).
Proof.
  apply (Login_blocks_without_callback rt login ctx (start world_silent old_cred)
           8080 world_silent world_silent); reflexivity.
Defined.

Lemma Login_discovery_status_error_witness :
  (Login rt login ctx (login_state qs_code ("Forbidden", 403, None))).1 =
    Returned (Some (fmt_Errorf "login failed : Forbidden" [])) /\
  fmt.Sprintf "login failed : Forbidden" [] = "login failed : Forbidden".
Proof.
  set (s := login_state qs_code ("Forbidden", 403, None)).
  destruct (Login_discovery_status_error rt login ctx s (Login rt login ctx s).2
              (Login rt login ctx s).1 (trace (Login rt login ctx s).2)
              authorizationURL "Bearer at1" "Forbidden" 403)
    as (Hout & _ & Htext).
  - apply surjective_pairing.
  - reflexivity.
  - vm_compute. log_find.
  - discriminate.
  - split; [exact Hout | exact (Htext eq_refl)].
Defined.

Lemma GetValidToken_read_error_witness :
  (GetValidToken rt login not_logged_in).1 =
    Returned (oauth2.zero, Some (errors_New "no such file")).
Proof.
  rewrite (GetValidToken_read_error rt login not_logged_in
             {| TokenInfo_TenantID := EmptyString; TokenInfo_Token := oauth2.zero |}
             (errors_New "no such file") eq_refl).
  reflexivity.
Defined.

Lemma GetValidToken_call_bounds_witness :
  (count is_token_request (trace (GetValidToken rt login (expired_state tok2)).2) <= 1 /\
   count is_write (trace (GetValidToken rt login (expired_state tok2)).2) <= 1)%nat.
Proof.
  destruct (GetValidToken_call_bounds rt login (expired_state tok2)
              (GetValidToken rt login (expired_state tok2)).2
              (GetValidToken rt login (expired_state tok2)).1
              (trace (GetValidToken rt login (expired_state tok2)).2))
    as ((_ & Hrequests & Hwrites & _) & _ & _).
  - apply surjective_pairing.
  - reflexivity.
  - split; assumption.
Defined.

(** The scripted store reads back what was written. *)
Lemma store_reads_back (info : TokenInfo) (f f' : file) :
  writeLoginInfo store info f = (None, f') -> readToken store f' = (info, None).
Proof.
  destruct f as [content writable]. simpl.
  destruct writable; intros H; simplify_eq. reflexivity.
Qed.

Lemma GetValidToken_twice_witness :
  exists info,
    TokenInfo_Token info = oauthToken_at now0 tok2 /\
    GetValidToken rt login (GetValidToken rt login (expired_state tok2)).2 =
      (Returned (oauthToken_at now0 tok2, None),
       mkState (world (GetValidToken rt login (expired_state tok2)).2)
         (files (GetValidToken rt login (expired_state tok2)).2)
         (trace (GetValidToken rt login (expired_state tok2)).2
            ++ [ev_readToken (info, None)])).
Proof.
  apply (GetValidToken_twice rt login (expired_state tok2)
           (GetValidToken rt login (expired_state tok2)).2 (oauthToken_at now0 tok2)).
  - exact store_reads_back.
  - vm_compute. reflexivity.
  - vm_compute. reflexivity.
Defined.

Lemma GetValidToken_short_lived_answer_witness :
  oauth2.Valid (oauthToken_at now0 tok_short)
    (time_Now rt (world (GetValidToken rt login (expired_state tok_short)).2)) = false.
Proof.
  apply (GetValidToken_short_lived_answer rt login (expired_state tok_short)
           (GetValidToken rt login (expired_state tok_short)).2
           (oauthToken_at now0 tok_short)
           (trace (GetValidToken rt login (expired_state tok_short)).2)
           (refreshToken_data "rt0") "t1" tok_short).
  - vm_compute. reflexivity.
  - reflexivity.
  - vm_compute. log_find.
  - simpl. lia.
  - vm_compute. discriminate.
Defined.

Lemma toOAuthToken_valid_iff_witness :
  oauth2.Valid (oauthToken_at now0 tok2) now0 = true.
Proof.
  apply (toOAuthToken_valid_iff rt tok2 (expired_state tok2) (expired_state tok2)
           (oauthToken_at now0 tok2)).
  - reflexivity.
  - simpl. lia.
  - vm_compute. discriminate.
  - split; [discriminate | simpl; lia].
Defined.

Lemma toOAuthToken_wrap_window_witness :
  oauth2.Expiry (oauthToken_at now0 tok_long) < now0.
Proof.
  apply (toOAuthToken_wrap_window rt tok_long (expired_state tok_long)
           (expired_state tok_long) (oauthToken_at now0 tok_long)).
  - reflexivity.
  - simpl. lia.
Defined.

Lemma openbrowser_exits_iff_witness :
  launch_fails rt "https://example.test/authorize" world_no_browser world_no_browser.
Proof.
  apply (openbrowser_exits_iff rt "https://example.test/authorize" world_no_browser
           world_no_browser (Exited 1)).
  - reflexivity.
  - reflexivity.
Defined.

Lemma NewAuthorizerFromLogin_store_error_witness :
  NewAuthorizerFromLogin rt (pkg elsewhere) valid_state =
    (Returned (None, Some (errors_New "mkdir /root/.azure: permission denied")),
     valid_state).
Proof.
  apply (NewAuthorizerFromLogin_store_error rt (pkg elsewhere) valid_state
           elsewhere None no_store); reflexivity.
Defined.

Lemma NewAuthorizerFromLogin_token_error_witness :
  (NewAuthorizerFromLogin rt (pkg home) not_logged_in).1 =
    Returned (None, Some (errors_New "no such file")).
Proof.
  rewrite (NewAuthorizerFromLogin_token_error rt (pkg home) not_logged_in
             (GetValidToken rt login not_logged_in).2 home None store (None, true)
             oauth2.zero (errors_New "no such file") eq_refl eq_refl eq_refl).
  reflexivity.
Defined.

Lemma NewAuthorizerFromLogin_result_witness :
  exists token,
    (NewAuthorizerFromLogin rt (pkg home) (expired_state tok2)).1 =
      Returned (Some token, None) /\
    adal.AccessToken token = "at2" /\
    adal.RefreshToken token = EmptyString.
Proof.
  set (token := {| adal.AccessToken := "at2"; adal.Type_ := "Bearer";
                   adal.ExpiresIn := "3599"; adal.ExpiresOn := "1664406799";
                   adal.RefreshToken := EmptyString; adal.Resource := EmptyString;
                   adal.NotBefore := EmptyString |}).
  assert (NewAuthorizerFromLogin rt (pkg home) (expired_state tok2) =
            (Returned (Some token, None),
             (NewAuthorizerFromLogin rt (pkg home) (expired_state tok2)).2)) as Hrun.
  { vm_compute. reflexivity. }
  destruct (NewAuthorizerFromLogin_result rt (pkg home) (expired_state tok2) _ _ _ Hrun)
    as [_ Hfields].
  exists token. split_and!.
  - rewrite Hrun. reflexivity.
  - reflexivity.
  - apply (Hfields token eq_refl).
Defined.

Lemma NewAuthorizerFromLogin_valid_credential_witness :
  NewAuthorizerFromLogin rt (pkg home) valid_state =
    (Returned
       (Some {| adal.AccessToken := "at0"; adal.Type_ := "Bearer";
                adal.ExpiresIn := "3600"; adal.ExpiresOn := "1664406800";
                adal.RefreshToken := EmptyString; adal.Resource := EmptyString;
                adal.NotBefore := EmptyString |},
        None),
     mkState (world valid_state) (files valid_state)
       [ev_readToken (cred 3600000000000, None)]).
Proof.
  rewrite (NewAuthorizerFromLogin_valid_credential rt (pkg home) valid_state home None
             store (files valid_state) (cred 3600000000000)
             eq_refl eq_refl eq_refl eq_refl).
  vm_compute. reflexivity.
Defined.

(** Against C5 as written: the login is cancelled before it starts and
    nothing has been delivered; the redirect arrives while the browser is
    started, the [select] finds both cases ready and takes the callback.
    With a code in the callback [Login] goes on and replaces the stored
    credential; with an error in it [Login] returns that failure. *)
Lemma Login_cancelled_first_callback_taken :
  ctx (world (cancelled_first qs_code)) = true /\
  queryCh rt_race (world (cancelled_first qs_code)) = None /\
  existsb is_write (trace (Login rt_race login_race ctx (cancelled_first qs_code)).2) = true /\
  files (Login rt_race login_race ctx (cancelled_first qs_code)).2 = (Some cred2, true) /\
  files (Login rt_race login_race ctx (cancelled_first qs_code)).2
    <> files (cancelled_first qs_code) /\
  (Login rt_race login_race ctx (cancelled_first qs_denied)).1 =
    Returned (Some (fmt_Errorf "login failed : %s" [fmt.strs ["access_denied"]])) /\
  (Login rt_race login_race ctx (cancelled_first qs_denied)).1 <> Returned None.
Proof.
  split_and!.
  - reflexivity.
  - reflexivity.
  - vm_compute. reflexivity.
  - vm_compute. reflexivity.
  - vm_compute. discriminate.
  - vm_compute. reflexivity.
  - vm_compute. discriminate.
Qed.

End MoreRuns.
